(** * PythonAIAgent: a shallow embedding of [app.py], [llm_tools.py] and
    [check_api_usage.py], and the properties of the specification that
    concern them.

    Conventions of the embedding.
    - A Python [str] is represented by the bytes of its UTF-8 encoding, as a
      [string]; a file opened with [encoding="utf-8"] therefore holds exactly
      the [string] written to it.
    - A Python [int] is a [Z]; a Python [float] is an IEEE 754 binary64 value,
      a [spec_float] used at precision 53 and maximal exponent 1024.
    - A raised exception is a value [Raise e]; [exn_str e] is [str(e)].
    - Third-party libraries (the agent executor, the JSON extraction of the
      output parser, the tokenizer) and the operating system (the clock, the
      file system, the directory walk) are fields of environment records.
    - Writes to standard output ([print]) are not part of the model: what is
      said of the value a function returns holds of the runs in which its
      writes succeed. *)

From Stdlib Require Import ZArith String Ascii List Lia.
From Stdlib Require Import SpecFloat.
From stdpp Require Import base option list gmap strings sorting pretty.

Local Open Scope string_scope.
Local Open Scope list_scope.
Local Open Scope Z_scope.

(** ** Exceptions and results *)

Record exn := Exn { exn_class : string; exn_str : string }.

Inductive result (A : Type) : Type :=
  | Ok (a : A)
  | Raise (e : exn).
Arguments Ok {A} a.
Arguments Raise {A} e.

#[global] Instance result_ret : MRet result := λ A a, Ok a.
#[global] Instance result_bind : MBind result := λ A B f m,
  match m with Ok a => f a | Raise e => Raise e end.

(** Statements that act on a store [S] (the file system, the log of calls to
    an external service) and may raise.  The store a statement reached is kept
    when it raises, as in Python. *)
Definition M (S A : Type) : Type := S → result A * S.

#[global] Instance M_ret {S} : MRet (M S) := λ A a s, (Ok a, s).
#[global] Instance M_bind {S} : MBind (M S) := λ A B f m s,
  match m s with
  | (Ok a, s') => f a s'
  | (Raise e, s') => (Raise e, s')
  end.

Definition lift {S A} (r : result A) : M S A := λ s, (r, s).

(** [try: body except Exception as e: handler e] *)
Definition try_except {S A} (body : M S A) (handler : exn → M S A) : M S A := λ s,
  match body s with
  | (Ok a, s') => (Ok a, s')
  | (Raise e, s') => handler e s'
  end.

(** ** Python values that come from JSON *)

#[warnings="-register-all"]
Inductive json : Type :=
  | JNull
  | JBool (b : bool)
  | JInt (n : Z)
  | JFloat (f : spec_float)
  | JStr (s : string)
  | JArr (l : list json)
  | JObj (d : gmap string json).

(** [bool(v)], the test behind [if v] and [not v]. *)
Definition truthy (v : json) : bool :=
  match v with
  | JNull => false
  | JBool b => b
  | JInt n => negb (n =? 0)
  | JFloat (S754_zero _) => false
  | JFloat _ => true
  | JStr s => negb (String.eqb s "")
  | JArr l => negb (Nat.eqb (length l) 0)
  | JObj d => negb (Nat.eqb (size d) 0)
  end.

(** [type(v).__name__] *)
Definition type_name (v : json) : string :=
  match v with
  | JNull => "NoneType"
  | JBool _ => "bool"
  | JInt _ => "int"
  | JFloat _ => "float"
  | JStr _ => "str"
  | JArr _ => "list"
  | JObj _ => "dict"
  end.

(** [v.get(key, dflt)]: only a dict has the method. *)
Definition get_method (v : json) (key : string) (dflt : json) : result json :=
  match v with
  | JObj d => Ok (default dflt (d !! key))
  | _ => Raise (Exn "AttributeError"
                    ("'" +:+ type_name v +:+ "' object has no attribute 'get'"))
  end.

(** * app.py *)

Module App.

(** [class ResearchTheResponse(BaseModel)] *)
Record ResearchTheResponse := {
  topic : string;
  summary : string;
  sources : list string;
  tools_used : list string }.

(** What the handler returns: [jsonify(body), status]. *)
Record response := Response { status : Z; body : json }.

(** The services the handler calls. [agent_executor_invoke] is
    [AgentExecutor.invoke], which runs the tool-use loop against the remote
    model and returns a dict whose ["output"] entry is the final text.
    [parse_json_markdown] is the first half of [PydanticOutputParser.parse]:
    the extraction of a JSON value from the text. [parser_exception_str] is
    the message of the exception the parser raises for a value that the schema
    rejects. *)
Record services := {
  agent_executor_invoke : gmap string json → result (gmap string string);
  parse_json_markdown : string → result json;
  parser_exception_str : json → string }.

(** The calls made to the services, oldest first. *)
Inductive call :=
  | Invoke (inputs : gmap string json)
  | Parse (text : string).

Definition as_str (v : json) : option string :=
  match v with JStr s => Some s | _ => None end.

(** A field annotated [list[str]]: a list all of whose items are [str]. *)
Definition as_str_list (v : json) : option (list string) :=
  match v with JArr l => mapM as_str l | _ => None end.

(** [ResearchTheResponse.model_validate(v)]: the input is a dict, each of the
    four annotated fields is present with a value of its type, and keys that
    are not fields are ignored. *)
Definition model_validate (v : json) : option ResearchTheResponse :=
  match v with
  | JObj d =>
      t ← d !! "topic" ≫= as_str;
      s ← d !! "summary" ≫= as_str;
      so ← d !! "sources" ≫= as_str_list;
      tu ← d !! "tools_used" ≫= as_str_list;
      Some {| topic := t; summary := s; sources := so; tools_used := tu |}
  | _ => None
  end.

(** [llm_parser.parse(text)] *)
Definition llm_parser_parse (sv : services) (text : string) : result ResearchTheResponse :=
  v ← parse_json_markdown sv text;
  match model_validate v with
  | Some r => Ok r
  | None => Raise (Exn "OutputParserException" (parser_exception_str sv v))
  end.

(** [structured_response.model_dump()] *)
Definition model_dump (r : ResearchTheResponse) : gmap string json :=
  {[ "topic" := JStr (topic r);
     "summary" := JStr (summary r);
     "sources" := JArr (JStr <$> sources r);
     "tools_used" := JArr (JStr <$> tools_used r) ]}.

Definition call_invoke (sv : services) (inputs : gmap string json)
  : M (list call) (gmap string string) :=
  λ log, (agent_executor_invoke sv inputs, log ++ [Invoke inputs]).

Definition call_parse (sv : services) (text : string)
  : M (list call) ResearchTheResponse :=
  λ log, (llm_parser_parse sv text, log ++ [Parse text]).

(** [get_query_response()], applied to the value of [request.get_json()].
    The constructors called between the test of the query and the invocation
    (of the model client, the parser, the prompt, the agent and its executor)
    build objects and call no service. *)
Definition get_query_response (sv : services) (request_json : json)
  : M (list call) response :=
  query ← lift (get_method request_json "query" (JStr ""));
  if negb (truthy query) then
    mret (Response 404 (JObj {[ "Error" := JStr "Query Required!!" ]}))
  else
    raw_response ← call_invoke sv {[ "query" := query ]};
    try_except
      (structured_response ← call_parse sv (default "" (raw_response !! "output"));
       mret (Response 200 (JObj {[ "response" := JObj (model_dump structured_response) ]})))
      (λ e, mret (Response 500 (JObj {[ "Error" := JStr (exn_str e) ]}))).

End App.

(** * llm_tools.py *)

Module LlmTools.

(** The value of [datetime.now()]. *)
Record datetime := {
  year : Z; month : Z; day : Z;
  hour : Z; minute : Z; second : Z }.

Definition nl : string := String "010"%char EmptyString.

(** A decimal number, padded with zeros on the left up to [width]. *)
Definition zfill (width : nat) (n : Z) : string :=
  let digits := pretty n in
  String.concat "" (replicate (width - String.length digits) "0") +:+ digits.

(** The conversion a [strftime] directive stands for. *)
Definition directive (c : ascii) (t : datetime) : string :=
  if Ascii.eqb c "Y" then zfill 4 (year t)
  else if Ascii.eqb c "m" then zfill 2 (month t)
  else if Ascii.eqb c "d" then zfill 2 (day t)
  else if Ascii.eqb c "H" then zfill 2 (hour t)
  else if Ascii.eqb c "M" then zfill 2 (minute t)
  else if Ascii.eqb c "S" then zfill 2 (second t)
  else String "%" (String c EmptyString).

(** [t.strftime(fmt)], for the directives above.  The four digits of [%Y] are
    those of a year from 1000 on; for an earlier year the C library decides
    whether zeros are put before it. *)
Fixpoint strftime (fmt : string) (t : datetime) : string :=
  match fmt with
  | EmptyString => EmptyString
  | String c rest =>
      if Ascii.eqb c "%" then
        match rest with
        | String d rest' => directive d t +:+ strftime rest' t
        | EmptyString => String c EmptyString
        end
      else String c (strftime rest t)
  end.

(** The failures of the platform: the exception, if any, that opening a path
    for writing raises, and the one that writing a text to it raises. *)
Record platform := {
  open_fails : string → option exn;
  write_fails : string → string → option exn }.

(** [open(filename, "w", encoding="utf-8")]: the file is created or truncated. *)
Definition open_w (pf : platform) (filename : string) : M (gmap string string) unit :=
  λ fs,
    match open_fails pf filename with
    | Some e => (Raise e, fs)
    | None => (Ok (), <[filename := ""]> fs)
    end.

(** [f.write(text)], followed by the close that ends the [with] block: the
    text is added at the end of the file. *)
Definition write (pf : platform) (filename text : string) : M (gmap string string) unit :=
  λ fs,
    match write_fails pf filename text with
    | Some e => (Raise e, fs)
    | None => (Ok (), <[filename := default "" (fs !! filename) +:+ text]> fs)
    end.

Definition header : string := "---- Final Output ---- ".

(** [save_to_txt_file(data, filename)], when [datetime.now()] is [now]. *)
Definition save_to_txt_file (pf : platform) (now : datetime) (data filename : string)
  : M (gmap string string) string :=
  let timestamp_now := strftime "%Y-%m-%d %H:%M:%S" now in
  let formatted_text :=
    header +:+ nl +:+ "Timestamp: " +:+ timestamp_now +:+ nl +:+ nl +:+ data +:+ nl +:+ nl in
  try_except
    (_ ← open_w pf filename;
     _ ← write pf filename formatted_text;
     mret ("Data saved successfully to " +:+ filename +:+ "."))
    (λ e, mret ("Failed to save data: " +:+ exn_str e)).

(** [save_tool.func(data)]: the tool passes one argument, so [filename] takes
    its default value. *)
Definition save_tool (pf : platform) (now : datetime) (data : string)
  : M (gmap string string) string :=
  save_to_txt_file pf now data "output.txt".

End LlmTools.

(** * check_api_usage.py *)

(** ** Python numbers *)

Inductive pynum :=
  | PInt (n : Z)
  | PFloat (f : spec_float).

Definition prec : Z := 53.
Definition emax : Z := 1024.

(** [float(n)]: the nearest double, ties to even. *)
Definition float_of_int (n : Z) : result spec_float :=
  match binary_normalize prec emax n 0 false with
  | S754_infinity _ => Raise (Exn "OverflowError" "int too large to convert to float")
  | f => Ok f
  end.

Definition to_float (x : pynum) : result spec_float :=
  match x with
  | PInt n => float_of_int n
  | PFloat f => Ok f
  end.

Definition is_zero (f : spec_float) : bool :=
  match f with S754_zero _ => true | _ => false end.

(** [a / b] on two ints: the double nearest to the exact quotient. *)
Definition int_true_divide (a b : Z) : result spec_float :=
  if b =? 0 then Raise (Exn "ZeroDivisionError" "division by zero")
  else if a =? 0 then Ok (S754_zero (b <? 0))
  else
    match SFdiv prec emax (S754_finite (a <? 0) (Z.to_pos (Z.abs a)) 0)
                          (S754_finite (b <? 0) (Z.to_pos (Z.abs b)) 0) with
    | S754_infinity _ =>
        Raise (Exn "OverflowError" "integer division result too large for a float")
    | f => Ok f
    end.

(** [x / y] *)
Definition py_truediv (x y : pynum) : result pynum :=
  match x, y with
  | PInt a, PInt b => f ← int_true_divide a b; Ok (PFloat f)
  | _, _ =>
      fx ← to_float x;
      fy ← to_float y;
      if is_zero fy then Raise (Exn "ZeroDivisionError" "float division by zero")
      else Ok (PFloat (SFdiv prec emax fx fy))
  end.

(** [x * y] *)
Definition py_mul (x y : pynum) : result pynum :=
  match x, y with
  | PInt a, PInt b => Ok (PInt (a * b))
  | _, _ =>
      fx ← to_float x;
      fy ← to_float y;
      Ok (PFloat (SFmul prec emax fx fy))
  end.

(** [x + y] *)
Definition py_add (x y : pynum) : result pynum :=
  match x, y with
  | PInt a, PInt b => Ok (PInt (a + b))
  | _, _ =>
      fx ← to_float x;
      fy ← to_float y;
      Ok (PFloat (SFadd prec emax fx fy))
  end.

(** [d[key]] *)
Definition getitem {V} (d : gmap string V) (key : string) : result V :=
  match d !! key with
  | Some v => Ok v
  | None => Raise (Exn "KeyError" ("'" +:+ key +:+ "'"))
  end.

(** ** Python strings *)

(** [sub in s] *)
Fixpoint contains (sub s : string) : bool :=
  String.prefix sub s ||
  match s with
  | EmptyString => false
  | String _ s' => contains sub s'
  end.

(** [s.endswith(suffix)] *)
Definition endswith (s suffix : string) : bool :=
  let n := String.length s in
  let k := String.length suffix in
  (k <=? n)%nat && String.eqb (String.substring (n - k) k s) suffix.

(** [len(s)]: the number of code points, that is, of the bytes that are not
    the continuation bytes [10xxxxxx] of the encoding. *)
Fixpoint len (s : string) : Z :=
  match s with
  | EmptyString => 0
  | String c s' =>
      (if Z.land (Z.of_N (N_of_ascii c)) 192 =? 128 then 0 else 1) + len s'
  end.

(** The first byte of [s] is a continuation byte: [s] begins inside a
    character. *)
Definition starts_inside (s : string) : bool :=
  match s with
  | String c _ => Z.land (Z.of_N (N_of_ascii c)) 192 =? 128
  | EmptyString => false
  end.

(** The characters of [s]: each leading byte with the continuation bytes that
    follow it. *)
Fixpoint chars (s : string) : list string :=
  match s with
  | EmptyString => []
  | String c s' =>
      match chars s' with
      | h :: t =>
          if starts_inside s' then String c h :: t
          else String c EmptyString :: h :: t
      | [] => [String c EmptyString]
      end
  end.

(** [s[:n]], for [n] that is not negative *)
Definition slice_to (n : Z) (s : string) : string :=
  String.concat "" (take (Z.to_nat n) (chars s)).

(** [s[-n:]], for positive [n]: the slice starts at [max(len(s) - n, 0)]. *)
Definition slice_last (n : Z) (s : string) : string :=
  String.concat "" (drop (Z.to_nat (len s - n)) (chars s)).

(** [s * k]: empty when [k] is negative. *)
Definition repeat_str (s : string) (k : Z) : string :=
  String.concat "" (replicate (Z.to_nat k) s).

Module CheckApiUsage.

(** [MODEL_PRICING]: USD per million tokens. *)
Definition MODEL_PRICING : gmap string (gmap string pynum) :=
  {[ "gpt-4o" := {[ "input" := PInt 5; "output" := PInt 20 ]} ]}.

Definition DEFAULT_MODEL : string := "gpt-4o".

(** What the script asks of the tokenizer library and of the operating system.
    [encoding_for_model name] is [tiktoken.encoding_for_model(name)], whose
    result is the [encode] method of the encoding; [os_walk] lists, for each
    directory under its argument, the directory, its subdirectories and its
    files; [read_text] is [open(path, 'r', encoding='utf-8')] followed by
    [read()]; [getsize] is [os.path.getsize]. *)
Record system := {
  encoding_for_model : string → result (string → result (list Z));
  os_walk : string → list (string * list string * list string);
  read_text : string → result string;
  getsize : string → result Z }.

(** [count_tokens(text, model)] *)
Definition count_tokens (sys : system) (text model : string) : Z :=
  match
    encoding ← encoding_for_model sys "gpt-4o";
    tokens ← encoding text;
    mret (Z.of_nat (length tokens))
  with
  | Ok n => n
  | Raise _ => len text `div` 4
  end.

(** [calculate_cost(input_tokens, output_tokens, model)] *)
Definition calculate_cost (input_tokens output_tokens : pynum) (model : string)
  : result pynum :=
  let model := if MODEL_PRICING !! model is None then DEFAULT_MODEL else model in
  pricing ← getitem MODEL_PRICING model;
  input_millions ← py_truediv input_tokens (PInt 1000000);
  input_price ← getitem pricing "input";
  input_cost ← py_mul input_millions input_price;
  output_millions ← py_truediv output_tokens (PInt 1000000);
  output_price ← getitem pricing "output";
  output_cost ← py_mul output_millions output_price;
  py_add input_cost output_cost.

(** The dict [analyze_file_tokens] returns; [error] is [None] when the dict
    has no ["error"] key. *)
Record file_result := {
  filepath : string;
  tokens : Z;
  size_bytes : Z;
  tokens_per_kb : pynum;
  error : option string }.

(** [analyze_file_tokens(filepath, model)] *)
Definition analyze_file_tokens (sys : system) (path model : string) : file_result :=
  match
    content ← read_text sys path;
    let token_count := count_tokens sys content model in
    file_size ← getsize sys path;
    per_kb ←
      (if 0 <? file_size then
         kb ← py_truediv (PInt file_size) (PInt 1024);
         py_truediv (PInt token_count) kb
       else Ok (PInt 0));
    mret {| filepath := path; tokens := token_count; size_bytes := file_size;
            tokens_per_kb := per_kb; error := None |}
  with
  | Ok r => r
  | Raise e =>
      {| filepath := path; tokens := 0; size_bytes := 0;
         tokens_per_kb := PInt 0; error := Some (exn_str e) |}
  end.

(** [os.path.join(root, file)] on a POSIX system. *)
Definition path_join (root file : string) : string :=
  if String.prefix "/" file then file
  else if String.eqb root "" || endswith root "/" then root +:+ file
  else root +:+ "/" +:+ file.

Definition skip_dirs : list string :=
  [".git"; "__pycache__"; "venv"; "env"; "node_modules"].

(** [any(skip_dir in root for skip_dir in [...])] *)
Definition skipped (root : string) : bool :=
  existsb (λ skip_dir, contains skip_dir root) skip_dirs.

(** [any(file.endswith(ext) for ext in file_types)] *)
Definition selected (file_types : list string) (file : string) : bool :=
  existsb (λ ext, endswith file ext) file_types.

(** The three variables the walk updates. *)
Record tally := {
  total_tokens : Z;
  total_files : Z;
  file_results : list file_result }.

(** The body of the inner loop, for one [file] of the directory [root]. *)
Definition visit (sys : system) (file_types : list string) (model root : string)
    (acc : tally) (file : string) : tally :=
  if skipped root then acc
  else if selected file_types file then
    let result := analyze_file_tokens sys (path_join root file) model in
    if error result is None then
      {| total_tokens := total_tokens acc + tokens result;
         total_files := total_files acc + 1;
         file_results := file_results acc ++ [result] |}
    else acc
  else acc.

(** [for root, _, files in os.walk(directory): for file in files: ...] *)
Definition walk (sys : system) (file_types : list string) (model directory : string)
  : tally :=
  foldl (λ acc '(root, _, files), foldl (visit sys file_types model root) acc files)
        {| total_tokens := 0; total_files := 0; file_results := [] |}
        (os_walk sys directory).

(** [key=lambda x: x["tokens"], reverse=True]: larger counts first. *)
Definition more_tokens (x y : file_result) : Prop := tokens y ≤ tokens x.

#[global] Instance more_tokens_dec x y : Decision (more_tokens x y) :=
  Z.le_dec (tokens y) (tokens x).

(** The place of [x] in a sorted list [l] of results that come after it:
    before the first result that has no more tokens than [x]. *)
Fixpoint insert_by_tokens (x : file_result) (l : list file_result) : list file_result :=
  match l with
  | [] => [x]
  | y :: l' =>
      if decide (more_tokens x y) then x :: l else y :: insert_by_tokens x l'
  end.

(** [file_results.sort(key=lambda x: x["tokens"], reverse=True)]: the sort is
    stable, so results with the same count keep the order they had. *)
Definition sort_by_tokens (l : list file_result) : list file_result :=
  foldr insert_by_tokens [] l.

Record costs := {
  all_input : pynum;
  all_output : pynum;
  mixed : pynum }.

(** The dict [estimate_project_usage] returns. *)
Record usage := {
  usage_total_tokens : Z;
  usage_total_files : Z;
  cost_estimates : costs;
  usage_file_results : list file_result }.

(** [estimate_project_usage(directory, file_types, model, verbose)]: the dict
    the function returns.  Its calls of [print] are not part of the model, so
    an exception raised while printing (a file name that the encoding of the
    standard output cannot write) is not represented. *)
Definition estimate_project_usage (sys : system) (directory : string)
    (file_types : option (list string)) (model : string) (verbose : bool)
  : result usage :=
  let file_types := default [".py"; ".txt"; ".md"; ".json"] file_types in
  let t := walk sys file_types model directory in
  let sorted := sort_by_tokens (file_results t) in
  input_cost ← calculate_cost (PInt (total_tokens t)) (PInt 0) model;
  output_cost ← calculate_cost (PInt 0) (PInt (total_tokens t)) model;
  half_in ← py_truediv (PInt (total_tokens t)) (PInt 2);
  half_out ← py_truediv (PInt (total_tokens t)) (PInt 2);
  mixed_cost ← calculate_cost half_in half_out model;
  mret {| usage_total_tokens := total_tokens t;
          usage_total_files := total_files t;
          cost_estimates :=
            {| all_input := input_cost; all_output := output_cost; mixed := mixed_cost |};
          usage_file_results := sorted |}.

(** The entries that the loop over [enumerate(file_results[:10])] prints, each
    with its rank [i + 1]; the loop stops at an index [i >= 10]. *)
Fixpoint listed_from (i : Z) (results : list file_result) : list (Z * file_result) :=
  match results with
  | [] => []
  | result :: rest =>
      if 10 <=? i then [] else (i + 1, result) :: listed_from (i + 1) rest
  end.

Definition top_token_heavy (file_results : list file_result) : list (Z * file_result) :=
  listed_from 0 (take 10 file_results).

(** [api_key[:4] + '*' * (len(api_key) - 8) + api_key[-4:]] *)
Definition masked_key (api_key : string) : string :=
  slice_to 4 api_key +:+ repeat_str "*" (len api_key - 8) +:+ slice_last 4 api_key.

(** [check_config_api_limits()]: the arguments of its calls of [print], in
    order.  [api_key] is the outcome of reading [config.ini] and of
    [config["OPENAI_API"]["API_KEY"]]. *)
Definition check_config_api_limits (api_key : result string) : list string :=
  match api_key with
  | Ok api_key =>
      if negb (String.eqb api_key "") then
        [String "010"%char "===== API Key Information =====";
         "Found API key in config.ini: " +:+ masked_key api_key;
         String "010"%char "To check your OpenAI API limits and usage:";
         "1. Go to https://platform.openai.com/account/usage";
         "2. Log in with your OpenAI account";
         "3. View your current usage and limits on that page"]
      else [String "010"%char "No API key found in config.ini"]
  | Raise e =>
      [String "010"%char "Error checking config.ini: " +:+ exn_str e;
       "No API key information available"]
  end.

End CheckApiUsage.

(** * Notions the properties are stated with *)

(** ** The endpoint *)




(** The two error responses and the success response of the endpoint. *)
Definition query_required : App.response :=
  App.Response 404 (JObj {[ "Error" := JStr "Query Required!!" ]}).

Definition server_error (message : string) : App.response :=
  App.Response 500 (JObj {[ "Error" := JStr message ]}).

Definition success (answer : gmap string json) : App.response :=
  App.Response 200 (JObj {[ "response" := JObj answer ]}).

(** The values [v] for which [not v] holds. *)
Definition falsy_values : list json :=
  [JNull; JBool false; JInt 0; JFloat (S754_zero false); JFloat (S754_zero true);
   JStr ""; JArr []; JObj ∅].

(** ** The saved file *)

(** Lines, each one ended by a newline. *)
Definition unlines (lines : list string) : string :=
  String.concat "" ((λ line, line +:+ LlmTools.nl) <$> lines).

(** A header line, a timestamp line, a blank line, the payload and a trailing
    blank line. *)
Definition file_layout (timestamp payload : string) : string :=
  unlines ["---- Final Output ---- "; "Timestamp: " +:+ timestamp; ""; payload; ""].

(** The timestamp the save tool writes when the clock reads [now]. *)
Definition timestamp (now : LlmTools.datetime) : string :=
  LlmTools.strftime "%Y-%m-%d %H:%M:%S" now.

Definition is_digit (c : ascii) : bool :=
  let n := N_of_ascii c in ((48 <=? n) && (n <=? 57))%N.

Definition is_upper (c : ascii) : bool :=
  let n := N_of_ascii c in ((65 <=? n) && (n <=? 90))%N.

(** [has_form pattern s]: [s] has the characters of [pattern], with a digit
    wherever [pattern] has a capital letter. *)
Fixpoint has_form (pattern s : string) : bool :=
  match pattern, s with
  | EmptyString, EmptyString => true
  | String p pattern', String c s' =>
      (if is_upper p then is_digit c else Ascii.eqb p c) && has_form pattern' s'
  | _, _ => false
  end.

(** The dates a clock gives: a year of four digits and the field ranges of
    [datetime]. *)
Definition valid_datetime (t : LlmTools.datetime) : Prop :=
  1000 ≤ LlmTools.year t ≤ 9999 ∧ 1 ≤ LlmTools.month t ≤ 12 ∧
  1 ≤ LlmTools.day t ≤ 31 ∧ 0 ≤ LlmTools.hour t ≤ 23 ∧
  0 ≤ LlmTools.minute t ≤ 59 ∧ 0 ≤ LlmTools.second t ≤ 59.

(** ** The directory walk *)

(** [s.split(sep)] for a separator of one character. *)
Fixpoint split_on (sep : ascii) (s : string) : list string :=
  match s with
  | EmptyString => [EmptyString]
  | String c s' =>
      if Ascii.eqb c sep then EmptyString :: split_on sep s'
      else
        match split_on sep s' with
        | h :: t => String c h :: t
        | [] => [String c EmptyString]
        end
  end.

(** Some component of the directory path is named exactly as one of the
    directories to skip. *)
Definition under_skip_dir (root : string) : bool :=
  existsb (λ component, bool_decide (component ∈ CheckApiUsage.skip_dirs))
          (split_on "/" root).

(** The files the walk hands to the analysis, in the order of the walk. *)
Definition candidates (sys : CheckApiUsage.system) (file_types : list string)
    (directory : string) : list string :=
  '(root, _, files) ← CheckApiUsage.os_walk sys directory;
  if CheckApiUsage.skipped root then []
  else CheckApiUsage.path_join root <$>
         List.filter (CheckApiUsage.selected file_types) files.

Definition sum_tokens (results : list CheckApiUsage.file_result) : Z :=
  foldr (λ r acc, CheckApiUsage.tokens r + acc) 0 results.

(** The successful analyses of the candidates. *)
Definition successes (sys : CheckApiUsage.system) (file_types : list string)
    (model directory : string) : list CheckApiUsage.file_result :=
  filter (λ r, CheckApiUsage.error r = None)
         ((λ path, CheckApiUsage.analyze_file_tokens sys path model)
            <$> candidates sys file_types directory).

(** The variables of the walk after the results [rs] have been counted. *)
Definition add_results (acc : CheckApiUsage.tally)
    (rs : list CheckApiUsage.file_result) : CheckApiUsage.tally :=
  {| CheckApiUsage.total_tokens := CheckApiUsage.total_tokens acc + sum_tokens rs;
     CheckApiUsage.total_files := CheckApiUsage.total_files acc + Z.of_nat (length rs);
     CheckApiUsage.file_results := CheckApiUsage.file_results acc ++ rs |}.

(** A float whose sign bit is clear, or a NaN. *)
Definition nonneg (f : spec_float) : Prop :=
  match f with
  | S754_zero s | S754_infinity s | S754_finite s _ _ => s = false
  | S754_nan => True
  end.

(** A computation that raises nothing but [OverflowError]. *)
Definition overflow_only {A} (r : result A) : Prop :=
  ∀ e, r = Raise e → exn_class e = "OverflowError".

(** [T / 1000000 * input_price] *)
Definition per_million (T : Z) (price : pynum) : result pynum :=
  millions ← py_truediv (PInt T) (PInt 1000000);
  py_mul millions price.

(** * Sample environments *)

(** The remote model cannot be reached. *)
Definition offline : App.services := {|
  App.agent_executor_invoke := λ _, Raise (Exn "APIConnectionError" "Connection error.");
  App.parse_json_markdown := λ _, Raise (Exn "OutputParserException" "Invalid json output");
  App.parser_exception_str := λ _, "Failed to parse ResearchTheResponse from completion" |}.

(** The model answers with prose in which no JSON is found. *)
Definition chatty : App.services := {|
  App.agent_executor_invoke := λ _, Ok {[ "output" := "Paris is the capital of France." ]};
  App.parse_json_markdown := λ _, Raise (Exn "OutputParserException" "Invalid json output");
  App.parser_exception_str := λ _, "Failed to parse ResearchTheResponse from completion" |}.

Definition paris : gmap string json :=
  {[ "topic" := JStr "France";
     "summary" := JStr "Paris is the capital of France.";
     "sources" := JArr [JStr "https://en.wikipedia.org/wiki/Paris"];
     "tools_used" := JArr [JStr "wikipedia"] ]}.

(** The model answers in the requested format. *)
Definition obedient : App.services := {|
  App.agent_executor_invoke := λ _, Ok {[ "output" := "{...}" ]};
  App.parse_json_markdown := λ _, Ok (JObj paris);
  App.parser_exception_str := λ _, "Failed to parse ResearchTheResponse from completion" |}.



(** Every write succeeds. *)
Definition healthy : LlmTools.platform := {|
  LlmTools.open_fails := λ _, None;
  LlmTools.write_fails := λ _ _, None |}.

(** No file can be opened for writing. *)
Definition read_only : LlmTools.platform := {|
  LlmTools.open_fails := λ path,
    Some (Exn "PermissionError" ("[Errno 13] Permission denied: '" +:+ path +:+ "'"));
  LlmTools.write_fails := λ _ _, None |}.

Definition morning : LlmTools.datetime := {|
  LlmTools.year := 2025; LlmTools.month := 3; LlmTools.day := 7;
  LlmTools.hour := 9; LlmTools.minute := 5; LlmTools.second := 0 |}.

Definition evening : LlmTools.datetime := {|
  LlmTools.year := 2025; LlmTools.month := 3; LlmTools.day := 7;
  LlmTools.hour := 21; LlmTools.minute := 40; LlmTools.second := 59 |}.

(** A directory with one text file, which the tokenizer cuts into forty
    tokens, and one file that cannot be read. *)
Definition small_project : CheckApiUsage.system := {|
  CheckApiUsage.encoding_for_model := λ _, Ok (λ _, Ok (replicate 40 0));
  CheckApiUsage.os_walk := λ directory, [(directory, [], ["notes.txt"; "locked.txt"])];
  CheckApiUsage.read_text := λ path,
    if String.eqb path "./notes.txt" then Ok "forty tokens of text"
    else Raise (Exn "PermissionError" ("[Errno 13] Permission denied: '" +:+ path +:+ "'"));
  CheckApiUsage.getsize := λ _, Ok 160 |}.

(** A directory with one text file and nothing else; the tokenizer cuts the
    text into forty tokens. *)
Definition one_file_project : CheckApiUsage.system := {|
  CheckApiUsage.encoding_for_model := λ _, Ok (λ _, Ok (replicate 40 0));
  CheckApiUsage.os_walk := λ directory, [(directory, [], ["notes.txt"])];
  CheckApiUsage.read_text := λ _, Ok "forty tokens of text";
  CheckApiUsage.getsize := λ _, Ok 160 |}.

(** The report of the script on either of them. *)
Definition small_project_report : CheckApiUsage.usage := {|
  CheckApiUsage.usage_total_tokens := 40;
  CheckApiUsage.usage_total_files := 1;
  CheckApiUsage.cost_estimates := {|
    CheckApiUsage.all_input := PFloat (S754_finite false 7378697629483821 (-65));
    CheckApiUsage.all_output := PFloat (S754_finite false 7378697629483821 (-63));
    CheckApiUsage.mixed := PFloat (S754_finite false 4611686018427388 (-63)) |};
  CheckApiUsage.usage_file_results :=
    [{| CheckApiUsage.filepath := "./notes.txt";
        CheckApiUsage.tokens := 40;
        CheckApiUsage.size_bytes := 160;
        CheckApiUsage.tokens_per_kb := PFloat (S754_finite false 4503599627370496 (-44));
        CheckApiUsage.error := None |}] |}.

(** * The command line of check_api_usage.py *)

Module CheckApiUsageMain.

(** The report that the script prints for [--dir directory --types types]:
    [estimate_project_usage(args.dir, args.types.split(','), DEFAULT_MODEL,
    args.verbose)]. *)
Definition main (sys : CheckApiUsage.system) (directory types : string)
    (verbose : bool) : result CheckApiUsage.usage :=
  CheckApiUsage.estimate_project_usage sys directory (Some (split_on "," types))
    CheckApiUsage.DEFAULT_MODEL verbose.

End CheckApiUsageMain.

(** * Further notions and samples *)

(** The report on a project in which no file is analyzed. *)
Definition empty_report : CheckApiUsage.usage := {|
  CheckApiUsage.usage_total_tokens := 0;
  CheckApiUsage.usage_total_files := 0;
  CheckApiUsage.cost_estimates := {|
    CheckApiUsage.all_input := PFloat (S754_zero false);
    CheckApiUsage.all_output := PFloat (S754_zero false);
    CheckApiUsage.mixed := PFloat (S754_zero false) |};
  CheckApiUsage.usage_file_results := [] |}.

(** The number that a string of decimal digits writes. *)
Definition read_number (s : string) : Z :=
  fold_left (λ n c, 10 * n + (Z.of_N (N_of_ascii c) - 48)) (list_ascii_of_string s) 0.

(** A token count or a cost: an int or a float that is not negative, and not
    a NaN. *)
Definition is_amount (x : pynum) : Prop :=
  match x with
  | PInt n => 0 ≤ n
  | PFloat f => nonneg f ∧ f ≠ S754_nan
  end.

(** A float, or a count of tokens below [2 ^ 1000]. *)
Definition fits (x : pynum) : Prop :=
  match x with
  | PInt n => 0 ≤ n < 2 ^ 1000
  | PFloat _ => True
  end.

(** A cost in dollars: a float that is neither negative nor a NaN. *)
Definition is_cost (f : spec_float) : Prop :=
  nonneg f ∧ f ≠ S754_nan.

(** A directory whose name contains [env], with one file. *)
Definition environment_project : CheckApiUsage.system := {|
  CheckApiUsage.encoding_for_model := λ _, Ok (λ _, Ok (replicate 40 0));
  CheckApiUsage.os_walk := λ directory, [("./venv/lib", [], ["site.py"])];
  CheckApiUsage.read_text := λ _, Ok "import os";
  CheckApiUsage.getsize := λ _, Ok 9 |}.

(** A directory with three text files, of which the tokenizer makes a token
    for each byte: two files of three tokens and, between them in the order
    of the walk, one of seven. *)
Definition tied_project : CheckApiUsage.system := {|
  CheckApiUsage.encoding_for_model :=
    λ _, Ok (λ text, Ok (replicate (String.length text) 0));
  CheckApiUsage.os_walk :=
    λ directory, [(directory, [], ["first.txt"; "long.txt"; "second.txt"])];
  CheckApiUsage.read_text :=
    λ path, if String.eqb path "./long.txt" then Ok "seven.." else Ok "abc";
  CheckApiUsage.getsize :=
    λ path, if String.eqb path "./long.txt" then Ok 7 else Ok 3 |}.

Definition tied_result (path : string) (n : Z) : CheckApiUsage.file_result := {|
  CheckApiUsage.filepath := path;
  CheckApiUsage.tokens := n;
  CheckApiUsage.size_bytes := n;
  CheckApiUsage.tokens_per_kb := PFloat (S754_finite false 4503599627370496 (-42));
  CheckApiUsage.error := None |}.

(** The report of the script on it. *)
Definition tied_report : CheckApiUsage.usage := {|
  CheckApiUsage.usage_total_tokens := 13;
  CheckApiUsage.usage_total_files := 3;
  CheckApiUsage.cost_estimates := {|
    CheckApiUsage.all_input := PFloat (S754_finite false 4796153459164483 (-66));
    CheckApiUsage.all_output := PFloat (S754_finite false 4796153459164483 (-64));
    CheckApiUsage.mixed := PFloat (S754_finite false 5995191823955604 (-65)) |};
  CheckApiUsage.usage_file_results :=
    [tied_result "./long.txt" 7; tied_result "./first.txt" 3;
     tied_result "./second.txt" 3] |}.

(** A directory whose one file is empty. *)
Definition empty_file_project : CheckApiUsage.system := {|
  CheckApiUsage.encoding_for_model :=
    λ _, Ok (λ text, Ok (replicate (String.length text) 0));
  CheckApiUsage.os_walk := λ directory, [(directory, [], ["__init__.py"])];
  CheckApiUsage.read_text := λ _, Ok "";
  CheckApiUsage.getsize := λ _, Ok 0 |}.

(** * Properties of the endpoint ([app.py]) *)

Section Endpoint.
Import App.
Context (sv : services).

(** The handler on a query for which [not query] holds: no service is called. *)
Lemma get_query_response_falsy (d : gmap string json) (log : list call) :
  truthy (default (JStr "") (d !! "query")) = false →
  get_query_response sv (JObj d) log = (Ok query_required, log).
Proof.
  intros Hq. unfold get_query_response, mbind, M_bind, lift. simpl.
  rewrite Hq. reflexivity.
Qed.

(** The handler on any other query, by the outcome of the two calls. *)
Lemma get_query_response_truthy (d : gmap string json) (q : json) (log : list call) :
  d !! "query" = Some q → truthy q = true →
  get_query_response sv (JObj d) log =
    match agent_executor_invoke sv {[ "query" := q ]} with
    | Raise e => (Raise e, log ++ [Invoke {[ "query" := q ]}])
    | Ok raw =>
        let text := default "" (raw !! "output") in
        let log' := (log ++ [Invoke {[ "query" := q ]}]) ++ [Parse text] in
        match llm_parser_parse sv text with
        | Ok r => (Ok (success (model_dump r)), log')
        | Raise e => (Ok (server_error (exn_str e)), log')
        end
    end.
Proof.
  intros Hd Hq. unfold get_query_response, mbind, M_bind, lift. simpl.
  rewrite Hd. simpl. rewrite Hq. simpl.
  unfold call_invoke. destruct (agent_executor_invoke sv _) as [raw|e]; [|done].
  unfold try_except, call_parse. simpl.
  by destruct (llm_parser_parse sv _).
Qed.

(** A body that is not a JSON object has no [get] method. *)
Lemma get_query_response_not_dict (v : json) (log : list call) :
  (∀ d, v ≠ JObj d) →
  get_query_response sv v log =
    (Raise (Exn "AttributeError"
              ("'" +:+ type_name v +:+ "' object has no attribute 'get'")), log).
Proof. intros Hv. destruct v; try done. by destruct (Hv d). Qed.

Lemma mapM_as_str (l : list json) (strs : list string) :
  mapM as_str l = Some strs ↔ l = JStr <$> strs.
Proof.
  rewrite mapM_Some. split.
  - intros H. induction H as [|v s l strs Hv _ IH]; [done|].
    destruct v; by simplify_eq/=.
  - intros ->. induction strs; constructor; done.
Qed.

Lemma model_validate_Some (v : json) (r : ResearchTheResponse) :
  model_validate v = Some r ↔
  ∃ d, v = JObj d ∧
       d !! "topic" = Some (JStr (topic r)) ∧
       d !! "summary" = Some (JStr (summary r)) ∧
       d !! "sources" = Some (JArr (JStr <$> sources r)) ∧
       d !! "tools_used" = Some (JArr (JStr <$> tools_used r)).
Proof.
  split.
  - destruct v as [| | | | |?|d]; try done. simpl. intros H. exists d.
    destruct (d !! "topic") as [[]|]; simplify_eq/=.
    destruct (d !! "summary") as [[]|]; simplify_eq/=.
    destruct (d !! "sources") as [[| | | | |so|]|]; simplify_eq/=.
    destruct (mapM as_str so) as [so'|] eqn:Hso; simplify_eq/=.
    destruct (d !! "tools_used") as [[| | | | |tu|]|]; simplify_eq/=.
    destruct (mapM as_str tu) as [tu'|] eqn:Htu; simplify_eq/=.
    apply mapM_as_str in Hso, Htu. by subst.
  - intros (d & -> & Ht & Hs & Hso & Htu). simpl.
    rewrite Ht, Hs, Hso, Htu. simpl.
    rewrite !(proj2 (mapM_as_str _ _) eq_refl). simpl. by destruct r.
Qed.


Lemma truthy_falsy_values (v : json) : truthy v = false ↔ v ∈ falsy_values.
Proof.
  unfold falsy_values. rewrite !elem_of_cons, elem_of_nil. split.
  - destruct v as [|[]|n|[[]| | |]|s|l|d]; simpl; try done; try tauto.
    + rewrite negb_false_iff, Z.eqb_eq. intros ->. tauto.
    + rewrite negb_false_iff, String.eqb_eq. intros ->. tauto.
    + destruct l; [tauto|done].
    + rewrite negb_false_iff, Nat.eqb_eq. intros ->%map_size_empty_inv. tauto.
  - intros H. decompose [or] H; subst; try done.
Qed.




(** C1, as amended: when the agent executor has returned, any exception raised
    while the model's output is parsed gives HTTP 500 with the body
    [{"Error": message}], where [message] is the text of the exception. *)
Theorem parse_failure_500 (d : gmap string json) (q : json)
    (raw : gmap string string) (e : exn) (log : list call) :
  d !! "query" = Some q → truthy q = true →
  agent_executor_invoke sv {[ "query" := q ]} = Ok raw →
  llm_parser_parse sv (default "" (raw !! "output")) = Raise e →
  fst (get_query_response sv (JObj d) log) = Ok (server_error (exn_str e)).
Proof.
  intros Hd Hq Hraw He.
  rewrite (get_query_response_truthy d q log Hd Hq), Hraw. simpl.
  by rewrite He.
Qed.

(** C2: a request whose JSON object has no ["query"] key, or has the empty
    string under it, is answered with HTTP 404 and the body
    [{"Error": "Query Required!!"}]; the log of calls is left as it was, so
    the orchestrator is not invoked. *)
Theorem missing_or_empty_query_404 (d : gmap string json) (log : list call) :
  d !! "query" = None ∨ d !! "query" = Some (JStr "") →
  get_query_response sv (JObj d) log = (Ok query_required, log).
Proof.
  intros [Hd|Hd]; apply get_query_response_falsy; by rewrite Hd.
Qed.


(** C10: every value [v] of ["query"] for which [not v] holds -- [null],
    [false], [0], [0.0], the empty string, the empty list and the empty
    object -- gives the same HTTP 404 response, with no call made, as a
    request without the key. *)
Theorem falsy_query_404 (d : gmap string json) (v : json) (log : list call) :
  d !! "query" = Some v → v ∈ falsy_values →
  get_query_response sv (JObj d) log = (Ok query_required, log) ∧
  get_query_response sv (JObj d) log =
    get_query_response sv (JObj (delete "query" d)) log.
Proof.
  intros Hd Hv%truthy_falsy_values.
  rewrite !get_query_response_falsy; [done| |].
  - by rewrite lookup_delete_eq.
  - by rewrite Hd.
Qed.

End Endpoint.

(** C1, as stated, fails: when the agent executor raises, the handler catches
    nothing and the exception leaves it; no response with an ["Error"] field
    is built. *)
Lemma orchestration_failure_propagates :
  App.agent_executor_invoke offline {[ "query" := JStr "capital of France?" ]}
    = Raise (Exn "APIConnectionError" "Connection error.") ∧
  App.get_query_response offline (JObj {[ "query" := JStr "capital of France?" ]}) []
    = (Raise (Exn "APIConnectionError" "Connection error."),
       [App.Invoke {[ "query" := JStr "capital of France?" ]}]) ∧
  fst (App.get_query_response offline (JObj {[ "query" := JStr "capital of France?" ]}) [])
    ≠ Ok (server_error "Connection error.").
Proof. split_and!; [reflexivity|reflexivity|discriminate]. Qed.


Lemma parse_failure_500_witness :
  fst (App.get_query_response chatty (JObj {[ "query" := JStr "capital of France?" ]}) [])
    = Ok (server_error "Invalid json output").
Proof.
  apply (parse_failure_500 chatty {[ "query" := JStr "capital of France?" ]}
           (JStr "capital of France?")
           {[ "output" := "Paris is the capital of France." ]}
           (Exn "OutputParserException" "Invalid json output") []);
    reflexivity.
Defined.

Lemma missing_or_empty_query_404_witness :
  App.get_query_response offline (JObj ∅) [] = (Ok query_required, []) ∧
  App.get_query_response obedient (JObj {[ "query" := JStr "" ]}) []
    = (Ok query_required, []).
Proof.
  split.
  - apply (missing_or_empty_query_404 offline ∅ []). left. reflexivity.
  - apply (missing_or_empty_query_404 obedient {[ "query" := JStr "" ]} []).
    right. reflexivity.
Defined.


Lemma falsy_query_404_witness :
  App.get_query_response obedient (JObj {[ "query" := JNull ]}) []
    = (Ok query_required, []).
Proof.
  apply (falsy_query_404 obedient {[ "query" := JNull ]} JNull []).
  - reflexivity.
  - constructor.
Defined.

(** * Properties of the save tool ([llm_tools.py]) *)

Lemma append_cons (c : ascii) (s1 s2 : string) : String c s1 +:+ s2 = String c (s1 +:+ s2).
Proof. reflexivity. Qed.

Lemma append_assoc (s1 s2 s3 : string) : (s1 +:+ s2) +:+ s3 = s1 +:+ s2 +:+ s3.
Proof. induction s1 as [|c s1 IH]; [done|]. by rewrite !append_cons, IH. Qed.

Lemma append_empty_r (s : string) : s +:+ "" = s.
Proof. induction s as [|c s IH]; [done|]. by rewrite append_cons, IH. Qed.

Lemma has_form_app (p1 p2 s1 s2 : string) :
  has_form p1 s1 = true → has_form p2 s2 = true →
  has_form (p1 +:+ p2) (s1 +:+ s2) = true.
Proof.
  revert s1. induction p1 as [|p p1 IH]; intros [|c s1]; simpl; try done.
  intros [Hc Hs]%andb_true_iff ?. rewrite Hc. simpl. by apply IH.
Qed.

Lemma zfill_2_form (n : Z) : 0 ≤ n ≤ 99 → has_form "DD" (LlmTools.zfill 2 n) = true.
Proof.
  intros Hn.
  assert (Forall (λ k, has_form "DD" (LlmTools.zfill 2 k) = true) (seqZ 0 100)) as Hall
    by (apply (bool_decide_unpack _); vm_compute; exact I).
  rewrite Forall_seqZ in Hall. apply Hall. lia.
Qed.

Lemma zfill_4_form (n : Z) : 1000 ≤ n ≤ 9999 → has_form "YYYY" (LlmTools.zfill 4 n) = true.
Proof.
  intros Hn.
  assert (Forall (λ k, has_form "YYYY" (LlmTools.zfill 4 k) = true) (seqZ 1000 9000)) as Hall
    by (apply (bool_decide_unpack _); vm_compute; exact I).
  rewrite Forall_seqZ in Hall. apply Hall. lia.
Qed.

Lemma strftime_fields (t : LlmTools.datetime) :
  LlmTools.strftime "%Y-%m-%d %H:%M:%S" t =
    LlmTools.zfill 4 (LlmTools.year t) +:+ "-" +:+
    LlmTools.zfill 2 (LlmTools.month t) +:+ "-" +:+
    LlmTools.zfill 2 (LlmTools.day t) +:+ " " +:+
    LlmTools.zfill 2 (LlmTools.hour t) +:+ ":" +:+
    LlmTools.zfill 2 (LlmTools.minute t) +:+ ":" +:+
    LlmTools.zfill 2 (LlmTools.second t).
Proof.
  cbn [LlmTools.strftime]. cbv [LlmTools.directive]. cbn [Ascii.eqb Bool.eqb].
  by rewrite append_empty_r.
Qed.

Lemma strftime_form (t : LlmTools.datetime) :
  valid_datetime t →
  has_form "YYYY-MM-DD HH:MM:SS" (LlmTools.strftime "%Y-%m-%d %H:%M:%S" t) = true.
Proof.
  intros (Hy & Hm & Hd & HH & HM & HS). rewrite strftime_fields.
  change "YYYY-MM-DD HH:MM:SS"
    with ("YYYY" +:+ "-" +:+ "MM" +:+ "-" +:+ "DD" +:+ " " +:+ "HH" +:+ ":" +:+ "MM" +:+ ":" +:+ "SS").
  repeat (apply has_form_app; [first [by apply zfill_4_form | apply zfill_2_form; lia | reflexivity]|]).
  apply zfill_2_form; lia.
Qed.

Section SaveTool.
Import LlmTools.
Context (pf : platform).

(** The invocation, by the outcome of the two file operations. *)
Lemma save_to_txt_file_run (now : datetime) (data filename : string)
    (fs : gmap string string) :
  save_to_txt_file pf now data filename fs =
    match open_fails pf filename with
    | Some e => (Ok ("Failed to save data: " +:+ exn_str e), fs)
    | None =>
        match write_fails pf filename (file_layout (timestamp now) data) with
        | Some e => (Ok ("Failed to save data: " +:+ exn_str e), <[filename := ""]> fs)
        | None =>
            (Ok ("Data saved successfully to " +:+ filename +:+ "."),
             <[filename := file_layout (timestamp now) data]> fs)
        end
    end.
Proof.
  assert (header +:+ nl +:+ "Timestamp: " +:+ timestamp now +:+ nl +:+ nl +:+
            data +:+ nl +:+ nl = file_layout (timestamp now) data) as Htext.
  { unfold file_layout, unlines. simpl.
    by rewrite !append_assoc. }
  unfold save_to_txt_file, try_except, mbind, M_bind, open_w, write.
  fold (timestamp now). rewrite Htext.
  destruct (open_fails pf filename); [done|].
  destruct (write_fails pf filename _); [done|].
  simpl. by rewrite lookup_insert_eq, insert_insert_eq.
Qed.

(** C4: each invocation replaces the content of the file.  After two
    invocations whose writes succeed, the file holds the text of the second
    alone: the header line, the line of the timestamp, which has the form
    YYYY-MM-DD HH:MM:SS, a blank line, the payload and a trailing blank
    line. *)
Theorem save_overwrites (now1 now2 : datetime) (payload1 payload2 filename : string)
    (fs : gmap string string) :
  valid_datetime now1 → valid_datetime now2 →
  open_fails pf filename = None →
  write_fails pf filename (file_layout (timestamp now1) payload1) = None →
  write_fails pf filename (file_layout (timestamp now2) payload2) = None →
  let fs1 := snd (save_to_txt_file pf now1 payload1 filename fs) in
  let fs2 := snd (save_to_txt_file pf now2 payload2 filename fs1) in
  fs1 !! filename = Some (file_layout (timestamp now1) payload1) ∧
  fs2 !! filename = Some (file_layout (timestamp now2) payload2) ∧
  has_form "YYYY-MM-DD HH:MM:SS" (timestamp now1) = true ∧
  has_form "YYYY-MM-DD HH:MM:SS" (timestamp now2) = true.
Proof.
  intros Hnow1 Hnow2 Hopen Hw1 Hw2. simpl.
  rewrite !save_to_txt_file_run, Hopen, Hw1, Hw2. simpl.
  rewrite !lookup_insert_eq. split_and!; [done|done| |]; by apply strftime_form.
Qed.

(** C5: the save adapter always returns a string.  If opening or writing the
    file raises an exception, the string is ["Failed to save data: "] followed
    by the message of the exception; otherwise it is the message of success. *)
Theorem save_never_raises (now : datetime) (data filename : string)
    (fs : gmap string string) :
  (∃ message, fst (save_to_txt_file pf now data filename fs) = Ok message) ∧
  (∀ e, open_fails pf filename = Some e →
        fst (save_to_txt_file pf now data filename fs)
          = Ok ("Failed to save data: " +:+ exn_str e)) ∧
  (∀ e, open_fails pf filename = None →
        write_fails pf filename (file_layout (timestamp now) data) = Some e →
        fst (save_to_txt_file pf now data filename fs)
          = Ok ("Failed to save data: " +:+ exn_str e)) ∧
  (open_fails pf filename = None →
   write_fails pf filename (file_layout (timestamp now) data) = None →
   fst (save_to_txt_file pf now data filename fs)
     = Ok ("Data saved successfully to " +:+ filename +:+ ".")).
Proof.
  rewrite save_to_txt_file_run. split_and!.
  - destruct (open_fails pf filename); [by eexists|].
    destruct (write_fails pf filename _); by eexists.
  - by intros e ->.
  - by intros e -> ->.
  - by intros -> ->.
Qed.

End SaveTool.

Lemma save_overwrites_witness :
  snd (LlmTools.save_tool healthy evening "second draft"
         (snd (LlmTools.save_tool healthy morning "first draft" ∅))) !! "output.txt"
    = Some (file_layout "2025-03-07 21:40:59" "second draft").
Proof.
  apply (save_overwrites healthy morning evening "first draft" "second draft"
           "output.txt" ∅); try reflexivity; unfold valid_datetime; simpl; lia.
Defined.

Lemma save_never_raises_witness :
  fst (LlmTools.save_tool read_only morning "first draft" ∅)
    = Ok "Failed to save data: [Errno 13] Permission denied: 'output.txt'".
Proof.
  apply (proj1 (proj2 (save_never_raises read_only morning "first draft" "output.txt" ∅))
           (Exn "PermissionError" "[Errno 13] Permission denied: 'output.txt'")).
  reflexivity.
Defined.

(** * Properties of the token-cost script ([check_api_usage.py]) *)

(** ** Arithmetic *)

Lemma binary_round_aux_nonneg (m e : Z) (l : location) :
  nonneg (binary_round_aux prec emax false m e l).
Proof.
  unfold binary_round_aux.
  destruct (shr_fexp prec emax m e l) as [mrs' e'].
  destruct (shr_fexp prec emax _ e' loc_Exact) as [mrs'' e''].
  destruct (shr_m mrs''); simpl; [done| |done].
  by destruct (Z.leb e'' _).
Qed.

Lemma int_true_divide_nonneg (a b : Z) (f : spec_float) :
  0 ≤ a → 0 < b → int_true_divide a b = Ok f → nonneg f.
Proof.
  intros Ha Hb. unfold int_true_divide.
  destruct (Z.eqb_spec b 0) as [|_]; [lia|].
  assert ((b <? 0) = false) as -> by lia.
  destruct (Z.eqb_spec a 0) as [|_]; [by intros [= <-]|].
  assert ((a <? 0) = false) as -> by lia.
  unfold SFdiv.
  destruct (SFdiv_core_binary prec emax _ 0 _ 0) as [[mz ez] lz].
  pose proof (binary_round_aux_nonneg mz ez lz) as Hr. simpl xorb.
  destruct (binary_round_aux prec emax false mz ez lz); intros [= <-]; done.
Qed.

Lemma SFmul_nonneg (f g : spec_float) :
  nonneg f → nonneg g → nonneg (SFmul prec emax f g).
Proof.
  destruct f, g; simpl; intros; subst; try done.
  apply binary_round_aux_nonneg.
Qed.

Lemma SFadd_zero_r (f : spec_float) :
  nonneg f → SFadd prec emax f (S754_zero false) = f.
Proof. destruct f; simpl; intros; by subst. Qed.

Lemma result_bind_Ok {A B} (a : A) (k : A → result B) : Ok a ≫= k = k a.
Proof. reflexivity. Qed.

Lemma py_truediv_ints (a b : Z) :
  py_truediv (PInt a) (PInt b) = f ← int_true_divide a b; Ok (PFloat f).
Proof. reflexivity. Qed.

Lemma py_mul_float_int (f : spec_float) (k : Z) (fk : spec_float) :
  float_of_int k = Ok fk →
  py_mul (PFloat f) (PInt k) = Ok (PFloat (SFmul prec emax f fk)).
Proof. intros Hk. simpl. by rewrite Hk. Qed.

Lemma py_add_floats (f g : spec_float) :
  py_add (PFloat f) (PFloat g) = Ok (PFloat (SFadd prec emax f g)).
Proof. reflexivity. Qed.

Lemma overflow_only_bind {A B} (m : result A) (k : A → result B) :
  overflow_only m → (∀ a, overflow_only (k a)) → overflow_only (m ≫= k).
Proof.
  intros Hm Hk e. destruct m as [a|e']; simpl; [apply Hk|].
  intros [= ->]. by apply Hm.
Qed.

Lemma overflow_only_Ok {A} (a : A) : overflow_only (Ok a).
Proof. by intros e. Qed.

Lemma float_of_int_overflow_only (n : Z) : overflow_only (float_of_int n).
Proof.
  intros e. unfold float_of_int.
  destruct (binary_normalize prec emax n 0 false); by intros [= <-].
Qed.

Lemma to_float_overflow_only (x : pynum) : overflow_only (to_float x).
Proof. destruct x; [apply float_of_int_overflow_only|apply overflow_only_Ok]. Qed.

Lemma int_true_divide_overflow_only (a b : Z) :
  b ≠ 0 → overflow_only (int_true_divide a b).
Proof.
  intros Hb e. unfold int_true_divide.
  destruct (Z.eqb_spec b 0); [done|]. destruct (a =? 0); [done|].
  destruct (SFdiv prec emax _ _); by intros [= <-].
Qed.

Lemma py_truediv_int_overflow_only (x : pynum) (b : Z) (fb : spec_float) :
  b ≠ 0 → float_of_int b = Ok fb → is_zero fb = false →
  overflow_only (py_truediv x (PInt b)).
Proof.
  intros Hb Hfb Hz. destruct x as [a|f]; simpl.
  - apply overflow_only_bind; [by apply int_true_divide_overflow_only|].
    intros; apply overflow_only_Ok.
  - rewrite Hfb. simpl. rewrite Hz. apply overflow_only_Ok.
Qed.

Lemma py_mul_overflow_only (x y : pynum) : overflow_only (py_mul x y).
Proof.
  destruct x, y; simpl; try apply overflow_only_Ok;
    (apply overflow_only_bind; [apply float_of_int_overflow_only|]);
    intros; apply overflow_only_Ok.
Qed.

Lemma py_add_overflow_only (x y : pynum) : overflow_only (py_add x y).
Proof.
  destruct x, y; simpl; try apply overflow_only_Ok;
    (apply overflow_only_bind; [apply float_of_int_overflow_only|]);
    intros; apply overflow_only_Ok.
Qed.

(** ** The cost of a token count *)

Section Costs.
Import CheckApiUsage.

Lemma MODEL_PRICING_gpt_4o :
  MODEL_PRICING !! "gpt-4o" = Some {[ "input" := PInt 5; "output" := PInt 20 ]}.
Proof. reflexivity. Qed.

Lemma MODEL_PRICING_Some (model : string) (pricing : gmap string pynum) :
  MODEL_PRICING !! model = Some pricing → model = "gpt-4o".
Proof. unfold MODEL_PRICING. by intros [-> _]%lookup_singleton_Some. Qed.

(** The table has one entry, so every model is priced as [gpt-4o]. *)
Lemma calculate_cost_prices (input_tokens output_tokens : pynum) (model : string) :
  calculate_cost input_tokens output_tokens model =
    (input_millions ← py_truediv input_tokens (PInt 1000000);
     input_cost ← py_mul input_millions (PInt 5);
     output_millions ← py_truediv output_tokens (PInt 1000000);
     output_cost ← py_mul output_millions (PInt 20);
     py_add input_cost output_cost).
Proof.
  unfold calculate_cost.
  destruct (MODEL_PRICING !! model) as [pricing|] eqn:Hm.
  - apply MODEL_PRICING_Some in Hm as ->. reflexivity.
  - reflexivity.
Qed.

Lemma calculate_cost_overflow_only (input_tokens output_tokens : pynum) (model : string) :
  overflow_only (calculate_cost input_tokens output_tokens model).
Proof.
  assert (∃ f, float_of_int 1000000 = Ok f ∧ is_zero f = false) as (f & Hf & Hz)
    by (eexists; split; vm_compute; reflexivity).
  rewrite calculate_cost_prices.
  repeat (apply overflow_only_bind;
          [first [by eapply py_truediv_int_overflow_only | apply py_mul_overflow_only]|intros]).
  apply py_add_overflow_only.
Qed.

(** With no output tokens, the cost is the cost of the input. *)
Lemma calculate_cost_all_input (T : Z) (model : string) :
  0 ≤ T → calculate_cost (PInt T) (PInt 0) model = per_million T (PInt 5).
Proof.
  intros HT. rewrite calculate_cost_prices. unfold per_million.
  rewrite (py_truediv_ints T).
  destruct (int_true_divide T 1000000) as [f|e] eqn:Hf; [|reflexivity].
  apply int_true_divide_nonneg in Hf; [|lia..].
  assert (∃ five, float_of_int 5 = Ok five ∧ nonneg five) as (five & H5 & Hnn)
    by (eexists; split; vm_compute; reflexivity).
  rewrite !result_bind_Ok, (py_mul_float_int f 5 five H5), !result_bind_Ok.
  replace (py_truediv (PInt 0) (PInt 1000000))
    with (Ok (PFloat (S754_zero false))) by (vm_compute; reflexivity).
  rewrite result_bind_Ok.
  replace (py_mul (PFloat (S754_zero false)) (PInt 20))
    with (Ok (PFloat (S754_zero false))) by (vm_compute; reflexivity).
  rewrite result_bind_Ok, py_add_floats.
  by rewrite SFadd_zero_r by by apply SFmul_nonneg.
Qed.


End Costs.


(** ** The walk *)

Section Walk.
Import CheckApiUsage.
Context (sys : system).

Lemma sum_tokens_app (rs1 rs2 : list file_result) :
  sum_tokens (rs1 ++ rs2) = sum_tokens rs1 + sum_tokens rs2.
Proof. induction rs1 as [|r rs1 IH]; simpl; lia. Qed.

Lemma sum_tokens_Permutation (rs1 rs2 : list file_result) :
  rs1 ≡ₚ rs2 → sum_tokens rs1 = sum_tokens rs2.
Proof. induction 1; simpl; lia. Qed.

Lemma add_results_nil (acc : tally) : add_results acc [] = acc.
Proof.
  destruct acc. unfold add_results. simpl. f_equal; [lia..|apply app_nil_r].
Qed.

Lemma add_results_app (acc : tally) (rs1 rs2 : list file_result) :
  add_results (add_results acc rs1) rs2 = add_results acc (rs1 ++ rs2).
Proof.
  unfold add_results. simpl.
  rewrite sum_tokens_app, length_app, app_assoc. f_equal; lia.
Qed.

(** The files of one directory that reach the analysis. *)
Lemma foldl_visit (file_types : list string) (model root : string)
    (files : list string) (acc : tally) :
  foldl (visit sys file_types model root) acc files =
    add_results acc
      (filter (λ r, error r = None)
         ((λ path, analyze_file_tokens sys path model) <$>
            (if skipped root then []
             else path_join root <$> List.filter (selected file_types) files))).
Proof.
  revert acc. induction files as [|file files IH]; intros acc; simpl.
  - destruct (skipped root); simpl; by rewrite add_results_nil.
  - rewrite IH. unfold visit. destruct (skipped root) eqn:Hskip; simpl.
    + done.
    + destruct (selected file_types file); simpl; [|done].
      rewrite filter_cons.
      destruct (error (analyze_file_tokens sys (path_join root file) model)) eqn:Herr.
      * rewrite decide_False by done. done.
      * rewrite decide_True by done.
        etransitivity; [|apply (add_results_app acc [_])]. f_equal.
        unfold add_results. simpl. f_equal; lia.
Qed.

Lemma foldl_walk (file_types : list string) (model : string)
    (dirs : list (string * list string * list string)) (acc : tally) :
  foldl (λ acc '(root, _, files), foldl (visit sys file_types model root) acc files)
        acc dirs =
    add_results acc
      (filter (λ r, error r = None)
         ((λ path, analyze_file_tokens sys path model) <$>
            ('(root, _, files) ← dirs;
             if skipped root then []
             else path_join root <$> List.filter (selected file_types) files))).
Proof.
  revert acc. induction dirs as [|[[root ?] files] dirs IH]; intros acc; simpl.
  - by rewrite add_results_nil.
  - rewrite IH, foldl_visit, add_results_app.
    by rewrite fmap_app, filter_app.
Qed.

(** The state of the three variables when the walk ends. *)
Lemma walk_tally (file_types : list string) (model directory : string) :
  walk sys file_types model directory =
    {| total_tokens := sum_tokens (successes sys file_types model directory);
       total_files := Z.of_nat (length (successes sys file_types model directory));
       file_results := successes sys file_types model directory |}.
Proof. unfold walk. by rewrite foldl_walk. Qed.

Lemma insert_by_tokens_Permutation (x : file_result) (l : list file_result) :
  insert_by_tokens x l ≡ₚ x :: l.
Proof.
  induction l as [|y l IH]; simpl; [done|].
  case_decide; [done|]. by rewrite IH, Permutation_swap.
Qed.

Lemma sort_by_tokens_Permutation (l : list file_result) : sort_by_tokens l ≡ₚ l.
Proof.
  induction l as [|x l IH]; simpl; [done|].
  by rewrite insert_by_tokens_Permutation, IH.
Qed.

Lemma insert_by_tokens_sorted (x : file_result) (l : list file_result) :
  StronglySorted more_tokens l → StronglySorted more_tokens (insert_by_tokens x l).
Proof.
  induction 1 as [|y l Hl IH Hy]; simpl; [by repeat constructor|].
  case_decide as Hxy.
  - constructor; [by constructor|]. constructor; [done|].
    eapply Forall_impl; [exact Hy|]. unfold more_tokens in *. intros z ?. lia.
  - constructor; [done|]. rewrite insert_by_tokens_Permutation.
    constructor; [|done]. unfold more_tokens in *. lia.
Qed.

Lemma sort_by_tokens_sorted (l : list file_result) :
  StronglySorted more_tokens (sort_by_tokens l).
Proof.
  induction l as [|x l IH]; simpl; [constructor|by apply insert_by_tokens_sorted].
Qed.

Lemma len_nonneg (s : string) : 0 ≤ len s.
Proof.
  induction s as [|c s IH]; [done|]. cbn [len].
  destruct (Z.land _ 192 =? 128); lia.
Qed.

Lemma count_tokens_nonneg (text model : string) : 0 ≤ count_tokens sys text model.
Proof.
  unfold count_tokens, mbind, result_bind, mret, result_ret.
  pose proof (len_nonneg text).
  destruct (encoding_for_model sys "gpt-4o") as [encoding|];
    [destruct (encoding text)|]; first [lia | by apply Z.div_pos].
Qed.

Lemma analyze_file_tokens_nonneg (path model : string) :
  0 ≤ tokens (analyze_file_tokens sys path model).
Proof.
  unfold analyze_file_tokens, mbind, result_bind, mret, result_ret.
  destruct (read_text sys path) as [content|]; [|done].
  destruct (getsize sys path) as [file_size|]; [|done].
  destruct (0 <? file_size); [|apply count_tokens_nonneg].
  destruct (py_truediv (PInt file_size) (PInt 1024)) as [kb|]; [|done].
  destruct (py_truediv _ kb); [apply count_tokens_nonneg|done].
Qed.

Lemma sum_tokens_successes_nonneg (file_types : list string) (model directory : string) :
  0 ≤ sum_tokens (successes sys file_types model directory).
Proof.
  unfold successes.
  induction (candidates sys file_types directory) as [|path paths IH]; simpl; [done|].
  rewrite filter_cons. case_decide; simpl; [|done].
  apply Z.add_nonneg_nonneg; [apply analyze_file_tokens_nonneg|apply IH].
Qed.

(** What a returned report holds. *)
Lemma estimate_project_usage_Ok (directory : string) (file_types : option (list string))
    (model : string) (verbose : bool) (u : usage) :
  estimate_project_usage sys directory file_types model verbose = Ok u →
  let t := walk sys (default [".py"; ".txt"; ".md"; ".json"] file_types) model directory in
  usage_total_tokens u = total_tokens t ∧
  usage_total_files u = total_files t ∧
  usage_file_results u = sort_by_tokens (file_results t) ∧
  calculate_cost (PInt (total_tokens t)) (PInt 0) model = Ok (all_input (cost_estimates u)).
Proof.
  unfold estimate_project_usage. cbv zeta.
  destruct (calculate_cost (PInt _) (PInt 0) model) as [ic|]; [|done].
  rewrite result_bind_Ok.
  destruct (calculate_cost (PInt 0) (PInt _) model) as [oc|]; [|done].
  rewrite result_bind_Ok.
  destruct (py_truediv _ (PInt 2)) as [half|]; [|done].
  rewrite !result_bind_Ok.
  destruct (calculate_cost half half model) as [mc|]; [|done].
  rewrite result_bind_Ok. by intros [= <-].
Qed.

(** The analyses of a directory with one file, which is selected. *)
Lemma successes_one_file (file_types : list string) (model directory root file : string)
    (dirs : list string) :
  os_walk sys directory = [(root, dirs, [file])] →
  skipped root = false → selected file_types file = true →
  error (analyze_file_tokens sys (path_join root file) model) = None →
  successes sys file_types model directory
    = [analyze_file_tokens sys (path_join root file) model].
Proof.
  intros Hwalk Hskip Hsel Herr. unfold successes, candidates.
  rewrite Hwalk. simpl. rewrite Hskip. simpl. rewrite Hsel. simpl.
  rewrite filter_cons, decide_True by done. by rewrite filter_nil.
Qed.

(** C6: the prices of [gpt-4o] are 5 and 20 USD per million tokens.  In a
    returned report [total_tokens] is the sum of the token counts of the
    files analyzed with success, and the cost of the scenario where all
    tokens are input is [total_tokens / 1000000 * 5], as it is for any count
    [T] of tokens.  So the report on a directory with one file, of 40 tokens,
    has [total_tokens == 40], one result, and the cost [40 / 1000000 * 5],
    which is the float [0.0002]. *)
Theorem all_input_cost (directory : string) (file_types : option (list string))
    (model : string) (verbose : bool) (u : usage) :
  estimate_project_usage sys directory file_types model verbose = Ok u →
  MODEL_PRICING !! "gpt-4o" = Some {[ "input" := PInt 5; "output" := PInt 20 ]} ∧
  usage_total_tokens u =
    sum_tokens (successes sys (default [".py"; ".txt"; ".md"; ".json"] file_types)
                          model directory) ∧
  0 ≤ usage_total_tokens u ∧
  per_million (usage_total_tokens u) (PInt 5) = Ok (all_input (cost_estimates u)) ∧
  (∀ T, 0 ≤ T → calculate_cost (PInt T) (PInt 0) model = per_million T (PInt 5)) ∧
  ∀ root dirs file,
    os_walk sys directory = [(root, dirs, [file])] →
    skipped root = false →
    selected (default [".py"; ".txt"; ".md"; ".json"] file_types) file = true →
    error (analyze_file_tokens sys (path_join root file) model) = None →
    tokens (analyze_file_tokens sys (path_join root file) model) = 40 →
    usage_total_tokens u = 40 ∧
    usage_total_files u = 1 ∧
    usage_file_results u = [analyze_file_tokens sys (path_join root file) model] ∧
    per_million 40 (PInt 5) = Ok (all_input (cost_estimates u)) ∧
    all_input (cost_estimates u) = PFloat (S754_finite false 7378697629483821 (-65)).
Proof.
  intros (Htok & Hfiles & Hres & Hcost)%estimate_project_usage_Ok.
  rewrite walk_tally in Htok, Hfiles, Hres, Hcost. simpl in Htok, Hfiles, Hres, Hcost.
  pose proof (sum_tokens_successes_nonneg
                (default [".py"; ".txt"; ".md"; ".json"] file_types) model directory).
  assert (per_million (usage_total_tokens u) (PInt 5) = Ok (all_input (cost_estimates u)))
    as Hper by (rewrite Htok, <-Hcost; symmetry; by apply calculate_cost_all_input).
  split_and!.
  - reflexivity.
  - done.
  - by rewrite Htok.
  - done.
  - intros T HT. by apply calculate_cost_all_input.
  - intros root dirs file Hwalk Hskip Hsel Herr H40.
    rewrite (successes_one_file _ _ _ root file dirs) in Htok, Hfiles, Hres by done.
    simpl in Htok, Hfiles, Hres. rewrite H40 in Htok.
    assert (usage_total_tokens u = 40) as Htok' by lia.
    rewrite Htok' in Hper. split_and!; [done|done|done|done|].
    assert (per_million 40 (PInt 5)
              = Ok (PFloat (S754_finite false 7378697629483821 (-65)))) as Hval
      by (vm_compute; reflexivity).
    rewrite Hval in Hper. by injection Hper.
Qed.

(** C9: a file whose analysis fails counts for nothing.  The results of a
    returned report are, up to their order, the analyses that succeeded; none
    of them carries an error; [total_files] is their number and
    [total_tokens] the sum of their token counts. *)
Theorem failed_files_contribute_nothing (directory : string)
    (file_types : option (list string)) (model : string) (verbose : bool) (u : usage) :
  estimate_project_usage sys directory file_types model verbose = Ok u →
  usage_file_results u ≡ₚ
    successes sys (default [".py"; ".txt"; ".md"; ".json"] file_types) model directory ∧
  Forall (λ r, error r = None) (usage_file_results u) ∧
  usage_total_files u = Z.of_nat (length (usage_file_results u)) ∧
  usage_total_tokens u = sum_tokens (usage_file_results u).
Proof.
  intros (Htok & Hfiles & Hres & _)%estimate_project_usage_Ok.
  rewrite walk_tally in Htok, Hfiles, Hres. simpl in Htok, Hfiles, Hres.
  assert (usage_file_results u ≡ₚ
            successes sys (default [".py"; ".txt"; ".md"; ".json"] file_types)
                      model directory) as Hperm
    by (rewrite Hres; apply sort_by_tokens_Permutation).
  split_and!.
  - done.
  - rewrite Hperm. unfold successes. apply Forall_forall.
    by intros r [? _]%list_elem_of_filter.
  - by rewrite Hfiles, Hperm.
  - rewrite Htok. symmetry. by apply sum_tokens_Permutation.
Qed.

End Walk.

Lemma all_input_cost_witness :
  ∃ u, CheckApiUsage.estimate_project_usage one_file_project "." None "gpt-4o" false = Ok u ∧
       CheckApiUsage.usage_total_tokens u = 40 ∧
       CheckApiUsage.usage_total_files u = 1 ∧
       per_million 40 (PInt 5) = Ok (CheckApiUsage.all_input (CheckApiUsage.cost_estimates u)) ∧
       CheckApiUsage.all_input (CheckApiUsage.cost_estimates u)
         = PFloat (S754_finite false 7378697629483821 (-65)).
Proof.
  assert (CheckApiUsage.estimate_project_usage one_file_project "." None "gpt-4o" false
            = Ok small_project_report) as Hrun by (vm_compute; reflexivity).
  exists small_project_report. split; [exact Hrun|].
  destruct (all_input_cost one_file_project "." None "gpt-4o" false small_project_report Hrun)
    as (_ & _ & _ & _ & _ & Hone).
  destruct (Hone "." [] "notes.txt") as (Htok & Hfiles & _ & Hper & Hcost);
    [reflexivity..|].
  by split_and!.
Defined.

Lemma failed_files_contribute_nothing_witness :
  CheckApiUsage.usage_total_files small_project_report
    = Z.of_nat (length (CheckApiUsage.usage_file_results small_project_report)) ∧
  CheckApiUsage.usage_total_tokens small_project_report
    = sum_tokens (CheckApiUsage.usage_file_results small_project_report).
Proof.
  apply (failed_files_contribute_nothing small_project "." None "gpt-4o" false
           small_project_report).
  vm_compute. reflexivity.
Defined.

(** ** The directories the walk skips *)

Lemma prefix_app (sub post : string) : String.prefix sub (sub +:+ post) = true.
Proof.
  induction sub as [|c sub IH]; [by destruct post|].
  rewrite append_cons. simpl. by destruct (ascii_dec c c).
Qed.

Lemma contains_prefix (sub s : string) :
  String.prefix sub s = true → contains sub s = true.
Proof. intros H. destruct s; cbn [contains]; by rewrite H. Qed.

Lemma contains_app (sub pre post : string) : contains sub (pre +:+ sub +:+ post) = true.
Proof.
  induction pre as [|c pre IH].
  - apply contains_prefix. exact (prefix_app sub post).
  - rewrite append_cons. simpl. rewrite IH. apply orb_true_r.
Qed.

Lemma split_on_head (sep : ascii) (s h : string) (t : list string) :
  split_on sep s = h :: t → ∃ post, s = h +:+ post.
Proof.
  destruct s as [|c s]; simpl.
  - intros [= <- _]. by exists "".
  - destruct (Ascii.eqb c sep).
    + intros [= <- _]. by eexists.
    + destruct (split_on sep s) as [|h' t'] eqn:E.
      * intros [= <- _]. by exists s.
      * intros [= <- _]. revert h' t' E. induction s as [|c' s IH]; simpl.
        -- intros h' t' [= <- _]. by exists "".
        -- intros h' t'. destruct (Ascii.eqb c' sep).
           ++ intros [= <- _]. by eexists.
           ++ destruct (split_on sep s) as [|h'' t''] eqn:E'.
              ** intros [= <- _]. by exists s.
              ** intros [= <- _]. destruct (IH h'' t'' eq_refl) as [post Hpost].
                 exists post. rewrite !append_cons. by injection Hpost as ->.
Qed.

Lemma split_on_component (sep : ascii) (s component : string) :
  component ∈ split_on sep s → ∃ pre post, s = pre +:+ component +:+ post.
Proof.
  induction s as [|c s IH]; simpl.
  - intros ->%list_elem_of_singleton. by exists "", "".
  - destruct (Ascii.eqb c sep).
    + intros [->|Hin]%elem_of_cons.
      * by exists "", (String c s).
      * destruct (IH Hin) as (pre & post & ->). by exists (String c pre), post.
    + destruct (split_on sep s) as [|h t] eqn:E.
      * intros ->%list_elem_of_singleton. by exists "", s.
      * intros [->|Hin]%elem_of_cons.
        -- destruct (split_on_head sep s h t E) as [post ->]. by exists "", post.
        -- destruct IH as (pre & post & ->); [by right|]. by exists (String c pre), post.
Qed.

(** A directory named as one of the directories to skip, anywhere in the
    path, is skipped. *)
Lemma under_skip_dir_skipped (root : string) :
  under_skip_dir root = true → CheckApiUsage.skipped root = true.
Proof.
  unfold under_skip_dir, CheckApiUsage.skipped. rewrite !existsb_exists.
  intros (component & Hin%list_elem_of_In & Hskip%bool_decide_eq_true).
  exists component. split; [by apply list_elem_of_In|].
  destruct (split_on_component _ _ _ Hin) as (pre & post & ->).
  apply contains_app.
Qed.

(** C3 fails on the code: the test is whether the directory path has one of
    the names as a substring, not whether a component is so named.  No
    component of [./environment] is one of the five names, yet the files of
    the directory are skipped, since [env] occurs in [environment]. *)
Theorem environment_directory_skipped :
  under_skip_dir "./environment" = false ∧
  CheckApiUsage.skipped "./environment" = true ∧
  ∀ sys file_types model acc file,
    CheckApiUsage.visit sys file_types model "./environment" acc file = acc.
Proof. split_and!; reflexivity. Qed.

(** * Further properties of the endpoint *)

Section EndpointMore.
Import App.
Context (sv : services).

(** X1: a body that is not a JSON object (a list, a string, a number,
    [null]) makes the handler raise [AttributeError]; no service is called. *)
Theorem body_not_object_raises (v : json) (log : list call) :
  (∀ d, v ≠ JObj d) →
  get_query_response sv v log =
    (Raise (Exn "AttributeError"
              ("'" +:+ type_name v +:+ "' object has no attribute 'get'")), log).
Proof. intros Hv. destruct v; try done. by destruct (Hv d). Qed.

(** X2: whenever the handler returns a response to an object body, the status
    is 404, 200 or 500; it is 404 exactly when [not query] holds, with no call
    made, and otherwise the executor and then the parser have been called
    once each. *)
Theorem response_statuses (d : gmap string json) (log log' : list call)
    (resp : response) :
  get_query_response sv (JObj d) log = (Ok resp, log') →
  let query := default (JStr "") (d !! "query") in
  (truthy query = false ∧ status resp = 404 ∧ log' = log) ∨
  (truthy query = true ∧ (status resp = 200 ∨ status resp = 500) ∧
   ∃ text, log' = log ++ [Invoke {[ "query" := query ]}; Parse text]).
Proof.
  intros Hrun. simpl. destruct (truthy (default (JStr "") (d !! "query"))) eqn:Hq.
  - right. destruct (d !! "query") as [q|] eqn:Hd; [|done]. simpl in *.
    rewrite (get_query_response_truthy sv d q log Hd Hq) in Hrun.
    destruct (agent_executor_invoke sv _) as [raw|]; [|done]. simpl in Hrun.
    split; [done|].
    destruct (llm_parser_parse sv _); injection Hrun as <- <-;
      (split; [auto|eexists; by rewrite <-app_assoc]).
  - left. rewrite (get_query_response_falsy sv d log Hq) in Hrun.
    by injection Hrun as <- <-.
Qed.

(** X3: a truthy query of any JSON type is passed to the executor as it is,
    and an exception of the executor leaves the handler: the parser is not
    called and no response is built. *)
Theorem executor_exception_propagates (d : gmap string json) (q : json) (e : exn)
    (log : list call) :
  d !! "query" = Some q → truthy q = true →
  agent_executor_invoke sv {[ "query" := q ]} = Raise e →
  get_query_response sv (JObj d) log = (Raise e, log ++ [Invoke {[ "query" := q ]}]).
Proof.
  intros Hd Hq He. by rewrite (get_query_response_truthy sv d q log Hd Hq), He.
Qed.

(** X4: dumping a structured answer and validating the dump gives the answer
    back. *)
Theorem model_dump_validate (r : ResearchTheResponse) :
  model_validate (JObj (model_dump r)) = Some r.
Proof. apply model_validate_Some. by exists (model_dump r). Qed.

(** X5: validation reads the four fields only: a key that is none of them
    changes nothing, whatever its value. *)
Theorem model_validate_ignores_extra (d : gmap string json) (key : string) (x : json) :
  key ∉ ["topic"; "summary"; "sources"; "tools_used"] →
  model_validate (JObj (<[key := x]> d)) = model_validate (JObj d).
Proof.
  intros Hkey. simpl.
  rewrite !lookup_insert_ne; [done|..]; intros ->; apply Hkey; set_solver.
Qed.

End EndpointMore.

Lemma body_not_object_raises_witness :
  App.get_query_response obedient (JArr [JStr "capital of France?"]) []
    = (Raise (Exn "AttributeError" "'list' object has no attribute 'get'"), []).
Proof.
  apply (body_not_object_raises obedient (JArr [JStr "capital of France?"]) []).
  discriminate.
Defined.

Lemma response_statuses_witness :
  App.status (success paris) = 200 ∨ App.status (success paris) = 500.
Proof.
  destruct (response_statuses obedient {[ "query" := JStr "capital of France?" ]} []
              [App.Invoke {[ "query" := JStr "capital of France?" ]}; App.Parse "{...}"]
              (success paris)) as [(H & _)|(_ & H & _)].
  - vm_compute. reflexivity.
  - vm_compute in H. discriminate H.
  - exact H.
Defined.

Lemma executor_exception_propagates_witness :
  App.get_query_response offline (JObj {[ "query" := JInt 7 ]}) []
    = (Raise (Exn "APIConnectionError" "Connection error."),
       [App.Invoke {[ "query" := JInt 7 ]}]).
Proof.
  apply (executor_exception_propagates offline {[ "query" := JInt 7 ]} (JInt 7)
           (Exn "APIConnectionError" "Connection error.") []); reflexivity.
Defined.

Lemma model_validate_ignores_extra_witness :
  App.model_validate (JObj (<[ "confidence" := JInt 9 ]> paris))
    = App.model_validate (JObj paris).
Proof.
  apply (model_validate_ignores_extra paris "confidence" (JInt 9)).
  rewrite !elem_of_cons, elem_of_nil. intros [|[|[|[|[]]]]]; discriminate.
Defined.

(** * Further properties of the save tool *)

Section SaveToolMore.
Import LlmTools.
Context (pf : platform).

(** X6: an invocation touches no file but its own, and when the file cannot
    be opened it touches none at all. *)
Theorem save_frame (now : datetime) (data filename : string) (fs : gmap string string) :
  (∀ path, path ≠ filename →
           snd (save_to_txt_file pf now data filename fs) !! path = fs !! path) ∧
  (∀ e, open_fails pf filename = Some e →
        snd (save_to_txt_file pf now data filename fs) = fs).
Proof.
  rewrite save_to_txt_file_run. split.
  - intros path Hpath. destruct (open_fails pf filename); [done|].
    destruct (write_fails pf filename _); simpl; by rewrite lookup_insert_ne.
  - by intros e ->.
Qed.

End SaveToolMore.

Lemma save_frame_witness :
  snd (LlmTools.save_tool healthy morning "first draft" {[ "notes.txt" := "keep" ]})
    !! "notes.txt" = ({[ "notes.txt" := "keep" ]} : gmap string string) !! "notes.txt".
Proof.
  apply (proj1 (save_frame healthy morning "first draft" "output.txt"
                  {[ "notes.txt" := "keep" ]}) "notes.txt").
  discriminate.
Defined.

Lemma append_length (s1 s2 : string) :
  String.length (s1 +:+ s2) = (String.length s1 + String.length s2)%nat.
Proof. induction s1 as [|c s1 IH]; [done|]. rewrite append_cons. simpl. by rewrite IH. Qed.

Lemma append_inj_length (a a' b b' : string) :
  String.length a = String.length a' → a +:+ b = a' +:+ b' → a = a' ∧ b = b'.
Proof.
  revert a'. induction a as [|c a IH]; intros [|c' a']; try done.
  rewrite !append_cons. intros [= Hlen] [= -> Happ].
  destruct (IH a' Hlen Happ) as [-> ->]. done.
Qed.

Lemma zfill_2_read (n : Z) :
  0 ≤ n ≤ 99 →
  String.length (LlmTools.zfill 2 n) = 2%nat ∧ read_number (LlmTools.zfill 2 n) = n.
Proof.
  intros Hn.
  assert (Forall (λ k, String.length (LlmTools.zfill 2 k) = 2%nat ∧
                       read_number (LlmTools.zfill 2 k) = k) (seqZ 0 100)) as Hall
    by (apply (bool_decide_unpack _); vm_compute; exact I).
  rewrite Forall_seqZ in Hall. apply Hall. lia.
Qed.

Lemma zfill_4_read (n : Z) :
  1000 ≤ n ≤ 9999 →
  String.length (LlmTools.zfill 4 n) = 4%nat ∧ read_number (LlmTools.zfill 4 n) = n.
Proof.
  intros Hn.
  assert (Forall (λ k, String.length (LlmTools.zfill 4 k) = 4%nat ∧
                       read_number (LlmTools.zfill 4 k) = k) (seqZ 1000 9000)) as Hall
    by (apply (bool_decide_unpack _); vm_compute; exact I).
  rewrite Forall_seqZ in Hall. apply Hall. lia.
Qed.

(** X7: the timestamp keeps the whole reading of the clock: two valid readings
    with the same timestamp are the same reading. *)
Theorem timestamp_inj (t1 t2 : LlmTools.datetime) :
  valid_datetime t1 → valid_datetime t2 → timestamp t1 = timestamp t2 → t1 = t2.
Proof.
  intros (Hy1 & Hm1 & Hd1 & HH1 & HM1 & HS1) (Hy2 & Hm2 & Hd2 & HH2 & HM2 & HS2).
  unfold timestamp. rewrite !strftime_fields.
  destruct (zfill_4_read _ Hy1) as [Ly1 Ry1], (zfill_4_read _ Hy2) as [Ly2 Ry2].
  destruct (zfill_2_read (LlmTools.month t1)) as [Lm1 Rm1]; [lia|].
  destruct (zfill_2_read (LlmTools.month t2)) as [Lm2 Rm2]; [lia|].
  destruct (zfill_2_read (LlmTools.day t1)) as [Ld1 Rd1]; [lia|].
  destruct (zfill_2_read (LlmTools.day t2)) as [Ld2 Rd2]; [lia|].
  destruct (zfill_2_read (LlmTools.hour t1)) as [LH1 RH1]; [lia|].
  destruct (zfill_2_read (LlmTools.hour t2)) as [LH2 RH2]; [lia|].
  destruct (zfill_2_read (LlmTools.minute t1)) as [LM1 RM1]; [lia|].
  destruct (zfill_2_read (LlmTools.minute t2)) as [LM2 RM2]; [lia|].
  destruct (zfill_2_read (LlmTools.second t1)) as [LS1 RS1]; [lia|].
  destruct (zfill_2_read (LlmTools.second t2)) as [LS2 RS2]; [lia|].
  intros [Ey [_ [Em [_ [Ed [_ [EH [_ [EM [_ ES]%append_inj_length]%append_inj_length
    ]%append_inj_length]%append_inj_length]%append_inj_length]%append_inj_length
    ]%append_inj_length]%append_inj_length]%append_inj_length]%append_inj_length;
    try congruence.
  destruct t1, t2; simpl in *. f_equal; congruence.
Qed.

Lemma timestamp_inj_witness : morning = morning.
Proof.
  apply (timestamp_inj morning morning); try reflexivity;
    unfold valid_datetime; simpl; lia.
Defined.

(** * Further properties of the token-cost script *)

(** ** Costs are amounts *)

Lemma shr_1_nonneg (mrs : shr_record) : 0 ≤ shr_m mrs → 0 ≤ shr_m (shr_1 mrs).
Proof. destruct mrs as [[|[p|p|]|[p|p|]] r s]; simpl; lia. Qed.

Lemma iter_pos_nonneg (p : positive) (mrs : shr_record) :
  0 ≤ shr_m mrs → 0 ≤ shr_m (SpecFloat.iter_pos shr_1 p mrs).
Proof.
  revert mrs. induction p as [p IH|p IH|]; intros mrs Hm; simpl.
  - by apply IH, IH, shr_1_nonneg.
  - by apply IH, IH.
  - by apply shr_1_nonneg.
Qed.

Lemma shr_fexp_nonneg (m e : Z) (l : location) :
  0 ≤ m → 0 ≤ shr_m (fst (shr_fexp prec emax m e l)).
Proof.
  intros Hm. unfold shr_fexp, shr.
  assert (0 ≤ shr_m (shr_record_of_loc m l)) by (by destruct l as [|[]]).
  destruct (fexp prec emax _ - e); simpl; [done| |done].
  by apply iter_pos_nonneg.
Qed.

Lemma round_nearest_even_nonneg (m : Z) (l : location) :
  0 ≤ m → 0 ≤ round_nearest_even m l.
Proof. intros Hm. destruct l as [|[]]; simpl; [done| |done|lia]. destruct (Z.even m); lia. Qed.

Lemma binary_round_aux_amount (m e : Z) (l : location) :
  0 ≤ m → is_amount (PFloat (binary_round_aux prec emax false m e l)).
Proof.
  intros Hm. split; [apply binary_round_aux_nonneg|].
  unfold binary_round_aux.
  pose proof (shr_fexp_nonneg m e l Hm) as H1.
  destruct (shr_fexp prec emax m e l) as [mrs' e']. simpl in H1.
  pose proof (shr_fexp_nonneg _ e' loc_Exact
                (round_nearest_even_nonneg _ (loc_of_shr_record mrs') H1)) as H2.
  destruct (shr_fexp prec emax _ e' loc_Exact) as [mrs'' e'']. simpl in H2.
  destruct (shr_m mrs''); [done| |lia].
  by destruct (e'' <=? emax - prec).
Qed.

Lemma SFdiv_core_binary_nonneg (m1 m2 : positive) (e1 e2 : Z) :
  0 ≤ fst (fst (SFdiv_core_binary prec emax (Z.pos m1) e1 (Z.pos m2) e2)).
Proof.
  unfold SFdiv_core_binary.
  set (s := e1 - e2 - _).
  set (m' := match s with Z.pos _ => Z.shiftl (Z.pos m1) s | 0 => Z.pos m1 | _ => 0 end).
  assert (0 ≤ m') as Hm'.
  { unfold m'. destruct s; [done| |done]. by apply Z.shiftl_nonneg. }
  pose proof (Z.div_pos m' (Z.pos m2) Hm' eq_refl) as Hq.
  unfold Z.div in Hq. by destruct (Z.div_eucl m' (Z.pos m2)).
Qed.

Lemma SFdiv_amount (f : spec_float) (m : positive) (e : Z) :
  is_amount (PFloat f) →
  is_amount (PFloat (SFdiv prec emax f (S754_finite false m e))).
Proof.
  intros [Hs Hn]. destruct f as [s|s| |s mx ex]; simpl in *; subst; try done.
  pose proof (SFdiv_core_binary_nonneg mx m ex e) as Hq.
  destruct (SFdiv_core_binary prec emax _ ex _ e) as [[mz ez] lz].
  by apply binary_round_aux_amount.
Qed.

Lemma SFmul_amount (f : spec_float) (m : positive) (e : Z) :
  is_amount (PFloat f) →
  is_amount (PFloat (SFmul prec emax f (S754_finite false m e))).
Proof.
  intros [Hs Hn]. destruct f as [s|s| |s mx ex]; simpl in *; subst; try done.
  by apply binary_round_aux_amount.
Qed.

Lemma SFadd_amount (f g : spec_float) :
  is_amount (PFloat f) → is_amount (PFloat g) →
  is_amount (PFloat (SFadd prec emax f g)).
Proof.
  intros [Hf Hfn] [Hg Hgn].
  destruct f as [?|?| |? mf ef], g as [?|?| |? mg eg]; simpl in *; subst; try done.
  unfold binary_normalize.
  destruct (shl_align mf ef (Z.min ef eg)) as [mf' ?],
           (shl_align mg eg (Z.min ef eg)) as [mg' ?]. simpl.
  unfold binary_round.
  destruct (shl_align _ _ _) as [mz ez].
  by apply binary_round_aux_amount.
Qed.

Lemma int_true_divide_amount (a b : Z) (f : spec_float) :
  0 ≤ a → 0 < b → int_true_divide a b = Ok f → is_amount (PFloat f).
Proof.
  intros Ha Hb. unfold int_true_divide.
  destruct (Z.eqb_spec b 0) as [|_]; [lia|].
  assert ((b <? 0) = false) as -> by lia.
  destruct (Z.eqb_spec a 0) as [|_]; [by intros [= <-]|].
  assert ((a <? 0) = false) as -> by lia.
  pose proof (SFdiv_amount (S754_finite false (Z.to_pos (Z.abs a)) 0)
                (Z.to_pos (Z.abs b)) 0) as H.
  destruct (SFdiv prec emax _ _); intros [= <-]; by apply H.
Qed.

(** Division by a positive int constant keeps amounts. *)
Lemma py_truediv_amount (x : pynum) (b : Z) (m : positive) (e : Z) (q : pynum) :
  0 < b → float_of_int b = Ok (S754_finite false m e) →
  is_amount x → py_truediv x (PInt b) = Ok q →
  ∃ f, q = PFloat f ∧ is_amount (PFloat f).
Proof.
  intros Hb Hfb Hx. destruct x as [a|f]; simpl.
  - destruct (int_true_divide a b) as [f|] eqn:Hf; [|done].
    intros [= <-]. exists f. split; [done|]. by eapply int_true_divide_amount.
  - rewrite Hfb. simpl. intros [= <-]. eexists. split; [done|]. by apply SFdiv_amount.
Qed.

Lemma py_mul_amount (f : spec_float) (k : Z) (m : positive) (e : Z) (c : pynum) :
  float_of_int k = Ok (S754_finite false m e) →
  is_amount (PFloat f) → py_mul (PFloat f) (PInt k) = Ok c →
  ∃ g, c = PFloat g ∧ is_amount (PFloat g).
Proof.
  intros Hk Hf. rewrite (py_mul_float_int f k _ Hk). intros [= <-].
  eexists. split; [done|]. by apply SFmul_amount.
Qed.

Lemma calculate_cost_amount (input_tokens output_tokens : pynum) (model : string)
    (c : pynum) :
  is_amount input_tokens → is_amount output_tokens →
  CheckApiUsage.calculate_cost input_tokens output_tokens model = Ok c →
  ∃ f, c = PFloat f ∧ is_amount (PFloat f).
Proof.
  intros Hi Ho. rewrite calculate_cost_prices.
  assert (∃ m e, float_of_int 1000000 = Ok (S754_finite false m e)) as (mM & eM & HM)
    by (do 2 eexists; vm_compute; reflexivity).
  assert (∃ m e, float_of_int 5 = Ok (S754_finite false m e)) as (m5 & e5 & H5)
    by (do 2 eexists; vm_compute; reflexivity).
  assert (∃ m e, float_of_int 20 = Ok (S754_finite false m e)) as (m20 & e20 & H20)
    by (do 2 eexists; vm_compute; reflexivity).
  destruct (py_truediv input_tokens (PInt 1000000)) as [im|] eqn:Him; [|done].
  destruct (py_truediv_amount _ 1000000 _ _ _ eq_refl HM Hi Him) as (fi & -> & Hfi).
  rewrite result_bind_Ok.
  destruct (py_mul (PFloat fi) (PInt 5)) as [ic|] eqn:Hic; [|done].
  destruct (py_mul_amount _ _ _ _ _ H5 Hfi Hic) as (gi & -> & Hgi).
  rewrite result_bind_Ok.
  destruct (py_truediv output_tokens (PInt 1000000)) as [om|] eqn:Hom; [|done].
  destruct (py_truediv_amount _ 1000000 _ _ _ eq_refl HM Ho Hom) as (fo & -> & Hfo).
  rewrite result_bind_Ok.
  destruct (py_mul (PFloat fo) (PInt 20)) as [oc|] eqn:Hoc; [|done].
  destruct (py_mul_amount _ _ _ _ _ H20 Hfo Hoc) as (go & -> & Hgo).
  rewrite result_bind_Ok, py_add_floats. intros [= <-].
  eexists. split; [done|]. by apply SFadd_amount.
Qed.

(** ** The report *)

Section ReportMore.
Import CheckApiUsage.
Context (sys : system).

Lemma result_bind_Raise {A B} (e : exn) (k : A → result B) : Raise e ≫= k = Raise e.
Proof. reflexivity. Qed.

(** The three costs of a returned report. *)
Lemma estimate_project_usage_costs (directory : string)
    (file_types : option (list string)) (model : string) (verbose : bool) (u : usage) :
  estimate_project_usage sys directory file_types model verbose = Ok u →
  calculate_cost (PInt (usage_total_tokens u)) (PInt 0) model
    = Ok (all_input (cost_estimates u)) ∧
  calculate_cost (PInt 0) (PInt (usage_total_tokens u)) model
    = Ok (all_output (cost_estimates u)) ∧
  ∃ half, py_truediv (PInt (usage_total_tokens u)) (PInt 2) = Ok half ∧
          calculate_cost half half model = Ok (mixed (cost_estimates u)).
Proof.
  unfold estimate_project_usage. cbv zeta.
  destruct (calculate_cost (PInt _) (PInt 0) model) as [ic|] eqn:Hic; [|done].
  rewrite result_bind_Ok.
  destruct (calculate_cost (PInt 0) (PInt _) model) as [oc|] eqn:Hoc; [|done].
  rewrite result_bind_Ok.
  destruct (py_truediv _ (PInt 2)) as [half|] eqn:Hhalf; [|done].
  rewrite !result_bind_Ok.
  destruct (calculate_cost half half model) as [mc|] eqn:Hmc; [|done].
  rewrite result_bind_Ok. intros [= <-]. simpl.
  split_and!; [done..|]. by exists half.
Qed.

Lemma usage_total_tokens_nonneg (directory : string)
    (file_types : option (list string)) (model : string) (verbose : bool) (u : usage) :
  estimate_project_usage sys directory file_types model verbose = Ok u →
  0 ≤ usage_total_tokens u.
Proof.
  intros (Htok & _)%estimate_project_usage_Ok. rewrite Htok, walk_tally.
  apply sum_tokens_successes_nonneg.
Qed.

(** X8: in a returned report the three cost estimates are floats that are
    neither negative nor NaN. *)
Theorem costs_are_amounts (directory : string) (file_types : option (list string))
    (model : string) (verbose : bool) (u : usage) :
  estimate_project_usage sys directory file_types model verbose = Ok u →
  is_amount (all_input (cost_estimates u)) ∧
  is_amount (all_output (cost_estimates u)) ∧
  is_amount (mixed (cost_estimates u)) ∧
  ∃ fi fo fm, cost_estimates u =
    {| all_input := PFloat fi; all_output := PFloat fo; mixed := PFloat fm |}.
Proof.
  intros Hu.
  assert (0 ≤ usage_total_tokens u) as HT by by eapply usage_total_tokens_nonneg.
  destruct (estimate_project_usage_costs _ _ _ _ _ Hu) as (Hi & Ho & half & Hh & Hm).
  assert (∃ m e, float_of_int 2 = Ok (S754_finite false m e)) as (m2 & e2 & H2)
    by (do 2 eexists; vm_compute; reflexivity).
  destruct (py_truediv_amount (PInt (usage_total_tokens u)) 2 _ _ _ eq_refl H2 HT Hh)
    as (fh & -> & Hfh).
  apply calculate_cost_amount in Hi as (fi & Hfi & ?); [|done..].
  apply calculate_cost_amount in Ho as (fo & Hfo & ?); [|done..].
  apply calculate_cost_amount in Hm as (fm & Hfm & ?); [|done..].
  rewrite Hfi, Hfo, Hfm. split_and!; [done..|].
  exists fi, fo, fm. destruct (cost_estimates u); simpl in *. congruence.
Qed.

Lemma estimate_project_usage_model (directory : string)
    (file_types : option (list string)) (model1 model2 : string) (verbose1 verbose2 : bool) :
  estimate_project_usage sys directory file_types model1 verbose1
    = estimate_project_usage sys directory file_types model2 verbose2.
Proof.
  assert (∀ i o, calculate_cost i o model1 = calculate_cost i o model2) as Hcost
    by (intros; by rewrite !calculate_cost_prices).
  unfold estimate_project_usage. cbv zeta.
  assert (∀ file_types, walk sys file_types model1 directory
                        = walk sys file_types model2 directory) as Hwalk by reflexivity.
  rewrite !Hwalk, !Hcost.
  destruct (calculate_cost (PInt _) (PInt 0) model2); [|by rewrite !result_bind_Raise].
  rewrite !result_bind_Ok.
  destruct (calculate_cost (PInt 0) (PInt _) model2); [|by rewrite !result_bind_Raise].
  rewrite !result_bind_Ok.
  destruct (py_truediv _ (PInt 2)); [|by rewrite !result_bind_Raise].
  by rewrite !result_bind_Ok, Hcost.
Qed.

(** X9: the report depends neither on the model name nor on the verbose
    flag: the table prices every model as [gpt-4o], and the tokenizer is
    always the one of [gpt-4o]. *)
Theorem report_independent_of_model (directory : string)
    (file_types : option (list string)) (model1 model2 : string) (verbose1 verbose2 : bool) :
  estimate_project_usage sys directory file_types model1 verbose1
    = estimate_project_usage sys directory file_types model2 verbose2.
Proof. apply estimate_project_usage_model. Qed.

(** X23: the command line without [--types] gives the report of a call that
    leaves [file_types] out: the two default lists of extensions agree. *)
Theorem main_default_types (directory model : string) (verbose verbose' : bool) :
  CheckApiUsageMain.main sys directory ".py,.txt,.md,.json" verbose
    = estimate_project_usage sys directory None model verbose'.
Proof.
  unfold CheckApiUsageMain.main.
  rewrite (estimate_project_usage_model directory None model DEFAULT_MODEL verbose' verbose).
  reflexivity.
Qed.

(** With no input tokens, the cost is the cost of the output. *)
Lemma calculate_cost_all_output (T : Z) (model : string) :
  0 ≤ T → calculate_cost (PInt 0) (PInt T) model = per_million T (PInt 20).
Proof.
  intros HT. rewrite calculate_cost_prices. unfold per_million.
  replace (py_truediv (PInt 0) (PInt 1000000))
    with (Ok (PFloat (S754_zero false))) by (vm_compute; reflexivity).
  rewrite result_bind_Ok.
  replace (py_mul (PFloat (S754_zero false)) (PInt 5))
    with (Ok (PFloat (S754_zero false))) by (vm_compute; reflexivity).
  rewrite result_bind_Ok, (py_truediv_ints T).
  destruct (int_true_divide T 1000000) as [f|e] eqn:Hf; [|reflexivity].
  apply int_true_divide_nonneg in Hf; [|lia..].
  assert (∃ twenty, float_of_int 20 = Ok twenty ∧ nonneg twenty) as (twenty & H20 & Hnn)
    by (eexists; split; vm_compute; reflexivity).
  rewrite !result_bind_Ok, (py_mul_float_int f 20 twenty H20), !result_bind_Ok.
  rewrite py_add_floats. do 2 f_equal.
  pose proof (SFmul_nonneg f twenty Hf Hnn) as Hg.
  destruct (SFmul prec emax f twenty) as [[]|[]| |]; simpl in *; done.
Qed.

(** X10: in a returned report the cost of the scenario where all tokens are
    output is [total_tokens / 1000000 * 20]. *)
Theorem all_output_cost (directory : string) (file_types : option (list string))
    (model : string) (verbose : bool) (u : usage) :
  estimate_project_usage sys directory file_types model verbose = Ok u →
  per_million (usage_total_tokens u) (PInt 20) = Ok (all_output (cost_estimates u)).
Proof.
  intros Hu.
  assert (0 ≤ usage_total_tokens u) as HT by by eapply usage_total_tokens_nonneg.
  destruct (estimate_project_usage_costs _ _ _ _ _ Hu) as (_ & <- & _).
  symmetry. by apply calculate_cost_all_output.
Qed.

(** X11: the results of a returned report are in the order of their token
    counts, the largest first: no result has more tokens than one before
    it. *)
Theorem results_sorted (directory : string) (file_types : option (list string))
    (model : string) (verbose : bool) (u : usage) (i j : nat) (r r' : file_result) :
  estimate_project_usage sys directory file_types model verbose = Ok u →
  usage_file_results u !! i = Some r → usage_file_results u !! j = Some r' →
  (i ≤ j)%nat → tokens r' ≤ tokens r.
Proof.
  intros (_ & _ & Hres & _)%estimate_project_usage_Ok Hi Hj Hij.
  pose proof (sort_by_tokens_sorted
                (file_results (walk sys (default [".py"; ".txt"; ".md"; ".json"] file_types)
                                    model directory))) as Hsorted.
  rewrite <-Hres in Hsorted. clear Hres.
  revert i j Hi Hj Hij.
  induction Hsorted as [|x l _ IH Hx]; intros i j Hi Hj Hij; [done|].
  destruct i as [|i], j as [|j]; simplify_eq/=; try lia.
  - rewrite Forall_forall in Hx. apply (Hx r'). by eapply list_elem_of_lookup_2.
  - apply (IH i j); [done..|lia].
Qed.

(** X12: when no analysis succeeds -- no file of the requested types, every
    directory skipped, a directory that does not exist, or files that cannot
    be read -- the report is returned, and it is the empty report, with costs
    of [0.0]. *)
Theorem nothing_analyzed (directory : string) (file_types : option (list string))
    (model : string) (verbose : bool) :
  successes sys (default [".py"; ".txt"; ".md"; ".json"] file_types) model directory = [] →
  estimate_project_usage sys directory file_types model verbose = Ok empty_report.
Proof.
  intros Hnone. unfold estimate_project_usage. cbv zeta.
  rewrite walk_tally, Hnone. cbn [total_tokens total_files file_results sum_tokens foldr length].
  assert (∀ x, x = PInt 0 ∨ x = PFloat (S754_zero false) →
               calculate_cost x x model = Ok (PFloat (S754_zero false))) as Hzero
    by (intros x [->| ->]; rewrite calculate_cost_prices; vm_compute; reflexivity).
  rewrite !(Hzero (PInt 0)), !result_bind_Ok by auto.
  replace (py_truediv (PInt 0) (PInt 2))
    with (Ok (PFloat (S754_zero false))) by (vm_compute; reflexivity).
  by rewrite !result_bind_Ok, Hzero by auto.
Qed.

Lemma insert_by_tokens_filter (n : Z) (x : file_result) (l : list file_result) :
  filter (λ r, tokens r = n) (insert_by_tokens x l) = filter (λ r, tokens r = n) (x :: l).
Proof.
  induction l as [|y l IH]; simpl; [done|].
  case_decide as Hxy; [done|].
  rewrite filter_cons, IH, !filter_cons.
  unfold more_tokens in Hxy. repeat case_decide; done || lia.
Qed.

Lemma sort_by_tokens_filter (n : Z) (l : list file_result) :
  filter (λ r, tokens r = n) (sort_by_tokens l) = filter (λ r, tokens r = n) l.
Proof.
  induction l as [|x l IH]; simpl; [done|].
  by rewrite insert_by_tokens_filter, !filter_cons, IH.
Qed.

(** X24: the sort of the results is stable: in a returned report the results
    with one and the same token count come in the order in which the walk
    met their files. *)
Theorem equal_counts_keep_order (directory : string) (file_types : option (list string))
    (model : string) (verbose : bool) (u : usage) (n : Z) :
  estimate_project_usage sys directory file_types model verbose = Ok u →
  filter (λ r, tokens r = n) (usage_file_results u) =
    filter (λ r, tokens r = n)
           (successes sys (default [".py"; ".txt"; ".md"; ".json"] file_types)
                      model directory).
Proof.
  intros (_ & _ & Hres & _)%estimate_project_usage_Ok.
  rewrite walk_tally in Hres. simpl in Hres.
  rewrite Hres. apply sort_by_tokens_filter.
Qed.

End ReportMore.

Lemma costs_are_amounts_witness :
  is_amount (CheckApiUsage.all_input (CheckApiUsage.cost_estimates small_project_report)).
Proof.
  apply (costs_are_amounts small_project "." None "gpt-4o" false small_project_report).
  vm_compute. reflexivity.
Defined.

Lemma all_output_cost_witness :
  per_million 40 (PInt 20)
    = Ok (CheckApiUsage.all_output (CheckApiUsage.cost_estimates small_project_report)).
Proof.
  apply (all_output_cost small_project "." None "gpt-4o" false small_project_report).
  vm_compute. reflexivity.
Defined.

Lemma nothing_analyzed_witness :
  CheckApiUsage.estimate_project_usage environment_project "." None "gpt-4o" true
    = Ok empty_report.
Proof.
  apply (nothing_analyzed environment_project "." None "gpt-4o" true).
  vm_compute. reflexivity.
Defined.

Lemma results_sorted_witness :
  ∃ r r',
    CheckApiUsage.estimate_project_usage tied_project "." None "gpt-4o" false
      = Ok tied_report ∧
    CheckApiUsage.usage_file_results tied_report !! 0%nat = Some r ∧
    CheckApiUsage.usage_file_results tied_report !! 1%nat = Some r' ∧
    CheckApiUsage.filepath r = "./long.txt" ∧ CheckApiUsage.tokens r = 7 ∧
    CheckApiUsage.filepath r' = "./first.txt" ∧ CheckApiUsage.tokens r' = 3 ∧
    CheckApiUsage.tokens r' ≤ CheckApiUsage.tokens r.
Proof.
  assert (CheckApiUsage.estimate_project_usage tied_project "." None "gpt-4o" false
            = Ok tied_report) as Hrun by (vm_compute; reflexivity).
  exists (tied_result "./long.txt" 7), (tied_result "./first.txt" 3).
  split_and!; [exact Hrun|reflexivity..|].
  apply (results_sorted tied_project "." None "gpt-4o" false tied_report 0%nat 1%nat
           (tied_result "./long.txt" 7) (tied_result "./first.txt" 3) Hrun);
    [reflexivity|reflexivity|lia].
Defined.

Lemma equal_counts_keep_order_witness :
  filter (λ r, CheckApiUsage.tokens r = 3) (CheckApiUsage.usage_file_results tied_report)
    = filter (λ r, CheckApiUsage.tokens r = 3)
             (successes tied_project (default [".py"; ".txt"; ".md"; ".json"] None)
                        "gpt-4o" ".") ∧
  CheckApiUsage.filepath <$>
    filter (λ r, CheckApiUsage.tokens r = 3) (CheckApiUsage.usage_file_results tied_report)
    = ["./first.txt"; "./second.txt"].
Proof.
  split; [|reflexivity].
  apply (equal_counts_keep_order tied_project "." None "gpt-4o" false tied_report 3).
  vm_compute. reflexivity.
Defined.

(** ** Which files are analyzed *)

Lemma prefix_inv (sub s : string) :
  String.prefix sub s = true → ∃ post, s = sub +:+ post.
Proof.
  revert s. induction sub as [|c sub IH]; intros s.
  - intros _. by exists s.
  - destruct s as [|c' s]; [done|].
    change (String.prefix (String c sub) (String c' s))
      with (if Ascii.ascii_dec c c' then String.prefix sub s else false).
    destruct (Ascii.ascii_dec c c') as [<-|]; [|done].
    intros [post ->]%IH. by exists post.
Qed.

Lemma contains_inv (sub s : string) :
  contains sub s = true → ∃ pre post, s = pre +:+ sub +:+ post.
Proof.
  induction s as [|c s IH]; cbn [contains].
  - rewrite orb_false_r. intros [post ->]%prefix_inv. by exists "", post.
  - intros [[post ->]%prefix_inv|(pre & post & ->)%IH]%orb_true_iff.
    + by exists "", post.
    + by exists (String c pre), post.
Qed.

Section WalkMore.
Import CheckApiUsage.
Context (sys : system).

(** X14: the files of a directory are skipped exactly when one of the five
    names occurs in the path of the directory, as a substring. *)
Theorem skipped_iff_substring (root : string) :
  skipped root = true ↔
  ∃ name pre post, name ∈ skip_dirs ∧ root = pre +:+ name +:+ post.
Proof.
  unfold skipped. rewrite existsb_exists. split.
  - intros (name & Hin%list_elem_of_In & (pre & post & ->)%contains_inv).
    by exists name, pre, post.
  - intros (name & pre & post & Hin%list_elem_of_In & ->).
    exists name. split; [done|apply contains_app].
Qed.

(** X15: no file of a directory that lies under a directory named [.git],
    [__pycache__], [venv], [env] or [node_modules] is counted: the walk
    leaves its three variables as they were. *)
Theorem skip_dir_not_counted (file_types : list string) (model root : string)
    (files : list string) (acc : tally) :
  under_skip_dir root = true →
  foldl (visit sys file_types model root) acc files = acc.
Proof.
  intros Hskip%under_skip_dir_skipped.
  rewrite foldl_visit, Hskip. apply add_results_nil.
Qed.

Lemma endswith_empty (file : string) : endswith file "" = true.
Proof.
  unfold endswith. cbn [String.length]. rewrite Nat.sub_0_r.
  assert (String.substring (String.length file) 0 file = "") as ->
    by (induction file; [done|by simpl]).
  done.
Qed.

Lemma split_on_trailing (sep : ascii) (s : string) :
  ∃ l, split_on sep (s +:+ String sep "") = l ++ [""] ∧ l ≠ [].
Proof.
  induction s as [|c s (l & IH & Hl)].
  - exists [""]. simpl. by rewrite Ascii.eqb_refl.
  - rewrite append_cons. simpl. rewrite IH. destruct (Ascii.eqb c sep).
    + by exists ("" :: l).
    + destruct l as [|h t]; [done|]. by exists (String c h :: t).
Qed.

(** X16: an extension list with an empty entry selects every file; the
    command line gives such a list for [--types ""] and for any [--types]
    value that ends with a comma. *)
Theorem empty_extension_selects_all (types file : string) :
  (∀ file_types, "" ∈ file_types → selected file_types file = true) ∧
  selected (split_on "," "") file = true ∧
  selected (split_on "," (types +:+ ",")) file = true.
Proof.
  assert (∀ file_types, "" ∈ file_types → selected file_types file = true) as Hsel.
  { intros file_types Hin. unfold selected. apply existsb_exists.
    exists "". split; [by apply list_elem_of_In|apply endswith_empty]. }
  split_and!; [done|apply Hsel; set_solver|].
  destruct (split_on_trailing "," types) as (l & Hl & _).
  apply Hsel. rewrite Hl. set_solver.
Qed.

(** X17: the loop that lists the heaviest files never reaches its [break]:
    it lists the first ten results, or all of them when there are fewer,
    with the ranks 1, 2, ... *)
Theorem top_token_heavy_listing (results : list file_result) :
  top_token_heavy results = imap (λ i r, (Z.of_nat i + 1, r)) (take 10 results).
Proof.
  unfold top_token_heavy.
  assert (∀ (l : list file_result) (i : Z),
            0 ≤ i → i + Z.of_nat (length l) ≤ 10 →
            listed_from i l = imap (λ k r, (i + Z.of_nat k + 1, r)) l) as Hgo.
  { induction l as [|r l IH]; intros i Hi Hlen; [done|]. simpl in *.
    destruct (Z.leb_spec 10 i); [lia|]. f_equal; [f_equal; lia|].
    rewrite IH by lia. apply imap_ext. intros k x _. simpl. f_equal. lia. }
  rewrite Hgo; [done|done|].
  rewrite length_take. lia.
Qed.

End WalkMore.

Lemma skipped_iff_substring_witness :
  CheckApiUsage.skipped "./environment" = true.
Proof.
  apply (proj2 (skipped_iff_substring "./environment")).
  exists "env", "./", "ironment". split; [|reflexivity].
  unfold CheckApiUsage.skip_dirs. set_solver.
Defined.

Lemma skip_dir_not_counted_witness :
  foldl (CheckApiUsage.visit environment_project [".py"] "gpt-4o" "./venv/lib")
        {| CheckApiUsage.total_tokens := 0; CheckApiUsage.total_files := 0;
           CheckApiUsage.file_results := [] |} ["site.py"]
    = {| CheckApiUsage.total_tokens := 0; CheckApiUsage.total_files := 0;
         CheckApiUsage.file_results := [] |}.
Proof.
  apply (skip_dir_not_counted environment_project [".py"] "gpt-4o" "./venv/lib").
  reflexivity.
Defined.


(** ** The masked API key *)

Lemma concat_cons (x : string) (l : list string) :
  String.concat "" (x :: l) = x +:+ String.concat "" l.
Proof. destruct l; simpl; [by rewrite append_empty_r|done]. Qed.

Lemma concat_app (l1 l2 : list string) :
  String.concat "" (l1 ++ l2) = String.concat "" l1 +:+ String.concat "" l2.
Proof.
  induction l1 as [|x l1 IH]; [done|].
  change ((x :: l1) ++ l2) with (x :: (l1 ++ l2)).
  by rewrite !concat_cons, IH, append_assoc.
Qed.

Lemma chars_concat (s : string) : String.concat "" (chars s) = s.
Proof.
  induction s as [|c s IH]; [done|]. cbn [chars].
  destruct (chars s) as [|h t]; [by simpl in IH; subst|].
  rewrite concat_cons in IH.
  destruct (starts_inside s); rewrite !concat_cons.
  - by rewrite append_cons, IH.
  - by rewrite IH.
Qed.

Lemma len_app (s1 s2 : string) : len (s1 +:+ s2) = len s1 + len s2.
Proof.
  induction s1 as [|c s1 IH]; [done|]. rewrite append_cons. cbn [len]. lia.
Qed.

Lemma len_concat (l : list string) :
  Forall (λ ch, len ch = 1) l → len (String.concat "" l) = Z.of_nat (length l).
Proof.
  induction 1 as [|x l Hx _ IH]; [done|].
  rewrite concat_cons, len_app, Hx, IH. simpl length. lia.
Qed.

(** Each character has one leading byte, except the first when the string
    begins inside a character. *)
Lemma chars_len (s : string) :
  match chars s with
  | [] => True
  | h :: t => len h = (if starts_inside s then 0 else 1) ∧ Forall (λ ch, len ch = 1) t
  end.
Proof.
  induction s as [|c s IH]; [done|]. cbn [chars].
  destruct (chars s) as [|h t].
  - split; [|done]. cbn [len starts_inside]. destruct (_ =? _); lia.
  - destruct IH as [Hh Ht]. destruct (starts_inside s).
    + split; [|done]. cbn [len starts_inside]. rewrite Hh. destruct (_ =? _); lia.
    + split; [|by constructor]. cbn [len starts_inside]. destruct (_ =? _); lia.
Qed.

Lemma chars_well_formed (s : string) :
  starts_inside s = false →
  Forall (λ ch, len ch = 1) (chars s) ∧ len s = Z.of_nat (length (chars s)).
Proof.
  intros Hs.
  assert (Forall (λ ch, len ch = 1) (chars s)) as Hall.
  { pose proof (chars_len s) as H. rewrite Hs in H.
    destruct (chars s); [done|]. destruct H. by constructor. }
  split; [done|]. by rewrite <-(chars_concat s) at 1; apply len_concat.
Qed.

Lemma repeat_str_star (k : Z) : 0 ≤ k → len (repeat_str "*" k) = k.
Proof.
  intros Hk. unfold repeat_str. rewrite len_concat.
  - rewrite length_replicate. lia.
  - by apply Forall_replicate.
Qed.

Section MaskedKey.
Import CheckApiUsage.

(** X18: a key of at most eight characters is not hidden at all.  What is
    printed for it is its first four characters followed by its last four
    (all of them, when there are fewer than four), with no star between; the
    two slices overlap and together hold the whole key.  A key of at most
    four characters is printed twice in full, in the line that
    [check_config_api_limits] prints for it. *)
Theorem short_key_not_masked (api_key : string) :
  starts_inside api_key = false → len api_key ≤ 8 →
  masked_key api_key = slice_to 4 api_key +:+ slice_last 4 api_key ∧
  len (slice_to 4 api_key) = Z.min 4 (len api_key) ∧
  len (slice_last 4 api_key) = Z.min 4 (len api_key) ∧
  (∃ overlap rest,
     slice_last 4 api_key = overlap +:+ rest ∧
     api_key = slice_to 4 api_key +:+ rest ∧
     masked_key api_key = slice_to 4 api_key +:+ overlap +:+ rest) ∧
  (∃ before, api_key = before +:+ slice_last 4 api_key) ∧
  (len api_key ≤ 4 → masked_key api_key = api_key +:+ api_key) ∧
  (len api_key ≤ 4 → api_key ≠ "" →
   check_config_api_limits (Ok api_key) !! 1%nat
     = Some ("Found API key in config.ini: " +:+ api_key +:+ api_key)).
Proof.
  intros Hstart Hshort.
  assert (masked_key api_key = slice_to 4 api_key +:+ slice_last 4 api_key) as Hmask.
  { unfold masked_key, repeat_str.
    replace (Z.to_nat (len api_key - 8)) with 0%nat by lia. reflexivity. }
  rewrite Hmask.
  cut (len (slice_to 4 api_key) = Z.min 4 (len api_key) ∧
       len (slice_last 4 api_key) = Z.min 4 (len api_key) ∧
       (∃ overlap rest,
          slice_last 4 api_key = overlap +:+ rest ∧
          api_key = slice_to 4 api_key +:+ rest) ∧
       (∃ before, api_key = before +:+ slice_last 4 api_key) ∧
       (len api_key ≤ 4 → slice_to 4 api_key = api_key ∧ slice_last 4 api_key = api_key)).
  { intros (H1 & H2 & (overlap & rest & H3 & H4) & H5 & H6).
    split_and!; [done..| | | |].
    - exists overlap, rest. by rewrite <-H3.
    - done.
    - intros [-> ->]%H6. done.
    - intros [H7 H8]%H6 Hne.
      unfold check_config_api_limits. apply String.eqb_neq in Hne as ->. simpl.
      by rewrite Hmask, H7, H8. }
  clear Hmask. revert Hstart Hshort.
  intros [Hall Hlen]%chars_well_formed Hshort.
  pose proof (chars_concat api_key) as Hcc.
  unfold slice_to, slice_last. rewrite Hlen in *.
  set (cs := chars api_key) in *.
  set (k := Z.to_nat (Z.of_nat (length cs) - 4)).
  change (Z.to_nat 4) with 4%nat.
  split_and!.
  - rewrite len_concat by by apply Forall_take. rewrite length_take. lia.
  - rewrite len_concat by by apply Forall_drop. rewrite length_drop. unfold k. lia.
  - exists (String.concat "" (take (4 - k) (drop k cs))), (String.concat "" (drop 4 cs)).
    split.
    + rewrite <-concat_app. f_equal.
      replace (drop 4 cs) with (drop (4 - k) (drop k cs)); [by rewrite take_drop|].
      rewrite drop_drop. f_equal. unfold k. lia.
    + by rewrite <-concat_app, take_drop.
  - exists (String.concat "" (take k cs)). by rewrite <-concat_app, take_drop.
  - intros Hshorter. replace k with 0%nat by (unfold k; lia).
    rewrite take_ge by lia. by rewrite drop_0, Hcc.
Qed.

(** X19: of a key of eight characters or more the first four and the last
    four characters are printed and each character between them is replaced
    by a star, so that the output has the length of the key. *)
Theorem long_key_masked (api_key : string) :
  starts_inside api_key = false → 8 ≤ len api_key →
  ∃ hidden,
    api_key = slice_to 4 api_key +:+ hidden +:+ slice_last 4 api_key ∧
    len (slice_to 4 api_key) = 4 ∧ len (slice_last 4 api_key) = 4 ∧
    len hidden = len api_key - 8 ∧
    masked_key api_key
      = slice_to 4 api_key +:+ repeat_str "*" (len hidden) +:+ slice_last 4 api_key ∧
    len (masked_key api_key) = len api_key.
Proof.
  intros [Hall Hlen]%chars_well_formed Hlong.
  pose proof (chars_concat api_key) as Hcc.
  unfold masked_key, slice_to, slice_last. rewrite Hlen in *.
  set (cs := chars api_key) in *. set (n := length cs) in *.
  change (Z.to_nat 4) with 4%nat.
  replace (Z.to_nat (Z.of_nat n - 4)) with (n - 4)%nat by lia.
  assert (len (String.concat "" (take 4 cs)) = 4) as Hfirst.
  { rewrite len_concat by by apply Forall_take. rewrite length_take. lia. }
  assert (len (String.concat "" (drop (n - 4) cs)) = 4) as Hlast.
  { rewrite len_concat by by apply Forall_drop. rewrite length_drop. lia. }
  assert (len (String.concat "" (take (n - 8) (drop 4 cs))) = Z.of_nat n - 8) as Hhidden.
  { rewrite len_concat by by apply Forall_take, Forall_drop.
    rewrite length_take, length_drop. lia. }
  exists (String.concat "" (take (n - 8) (drop 4 cs))).
  rewrite Hhidden. split_and!; [|done..|].
  - rewrite <-!concat_app.
    rewrite <-Hcc at 1. f_equal.
    rewrite <-(take_drop 4 cs) at 1. f_equal.
    rewrite <-(take_drop (n - 8) (drop 4 cs)) at 1. f_equal.
    rewrite drop_drop. f_equal. lia.
  - rewrite !len_app, Hfirst, Hlast, repeat_str_star by lia. lia.
Qed.

End MaskedKey.

Lemma short_key_not_masked_witness :
  CheckApiUsage.masked_key "abc123" = slice_to 4 "abc123" +:+ slice_last 4 "abc123" ∧
  slice_to 4 "abc123" = "abc1" ∧ slice_last 4 "abc123" = "c123" ∧
  CheckApiUsage.masked_key "sk-1" = "sk-1" +:+ "sk-1".
Proof.
  split_and!; [|reflexivity|reflexivity|].
  - apply (short_key_not_masked "abc123" eq_refl). vm_compute. discriminate.
  - apply (short_key_not_masked "sk-1" eq_refl ltac:(vm_compute; discriminate)).
    vm_compute. discriminate.
Defined.

Lemma long_key_masked_witness :
  ∃ hidden,
    "sk-proj-abcdef" = slice_to 4 "sk-proj-abcdef" +:+ hidden +:+ slice_last 4 "sk-proj-abcdef" ∧
    len (slice_to 4 "sk-proj-abcdef") = 4 ∧ len (slice_last 4 "sk-proj-abcdef") = 4 ∧
    len hidden = len "sk-proj-abcdef" - 8 ∧
    CheckApiUsage.masked_key "sk-proj-abcdef"
      = slice_to 4 "sk-proj-abcdef" +:+ repeat_str "*" (len hidden) +:+
        slice_last 4 "sk-proj-abcdef" ∧
    len (CheckApiUsage.masked_key "sk-proj-abcdef") = len "sk-proj-abcdef".
Proof.
  apply (long_key_masked "sk-proj-abcdef"); [reflexivity|vm_compute; discriminate].
Defined.

(** ** No overflow below [2 ^ 1000] tokens *)

Lemma digits2_pos_size (p : positive) : digits2_pos p = Pos.size p.
Proof. induction p; simpl; congruence. Qed.

Lemma Zdigits2_nonneg (m : Z) : 0 ≤ Zdigits2 m.
Proof. by destruct m. Qed.

Lemma Zdigits2_upper (m : Z) : 0 ≤ m → m < 2 ^ Zdigits2 m.
Proof.
  destruct m as [|p|p]; [done| |lia]. intros _. simpl. rewrite digits2_pos_size.
  pose proof (Pos.size_gt p) as H. apply Pos2Z.pos_lt_pos in H.
  by rewrite Pos2Z.inj_pow in H.
Qed.

Lemma Zdigits2_lower (p : positive) : 2 ^ (Zdigits2 (Z.pos p) - 1) ≤ Z.pos p.
Proof.
  simpl. rewrite digits2_pos_size.
  pose proof (Pos.size_le p) as H. apply Pos2Z.pos_le_pos in H.
  rewrite Pos2Z.inj_pow in H.
  replace (Z.pos (Pos.size p)) with (Z.succ (Z.pos (Pos.size p) - 1)) in H by lia.
  rewrite Z.pow_succ_r in H by lia. lia.
Qed.

Lemma Zdigits2_le (m k : Z) : 0 ≤ m → 0 ≤ k → m < 2 ^ k → Zdigits2 m ≤ k.
Proof.
  intros Hm Hk Hlt. destruct m as [|p|p]; [done| |lia].
  pose proof (Zdigits2_lower p) as Hlow.
  assert (2 ^ (Zdigits2 (Z.pos p) - 1) < 2 ^ k) as H by lia.
  apply Z.pow_lt_mono_r_iff in H; lia.
Qed.

Lemma shr_1_digits (mrs : shr_record) :
  0 ≤ shr_m mrs →
  Zdigits2 (shr_m (shr_1 mrs)) ≤ Z.max 0 (Zdigits2 (shr_m mrs) - 1).
Proof. destruct mrs as [[|[p|p|]|[p|p|]] r s]; simpl; lia. Qed.

Lemma iter_pos_digits (p : positive) (mrs : shr_record) :
  0 ≤ shr_m mrs →
  Zdigits2 (shr_m (SpecFloat.iter_pos shr_1 p mrs))
    ≤ Z.max 0 (Zdigits2 (shr_m mrs) - Z.pos p).
Proof.
  revert mrs. induction p as [p IH|p IH|]; intros mrs Hm; simpl SpecFloat.iter_pos.
  - pose proof (shr_1_digits mrs Hm).
    pose proof (IH _ (shr_1_nonneg _ Hm)).
    pose proof (IH _ (iter_pos_nonneg p _ (shr_1_nonneg _ Hm))). lia.
  - pose proof (IH _ Hm).
    pose proof (IH _ (iter_pos_nonneg p _ Hm)). lia.
  - by apply shr_1_digits.
Qed.

Lemma shr_fexp_digits (m e : Z) (l : location) :
  0 ≤ m →
  snd (shr_fexp prec emax m e l) = Z.max e (fexp prec emax (Zdigits2 m + e)) ∧
  Zdigits2 (shr_m (fst (shr_fexp prec emax m e l))) + snd (shr_fexp prec emax m e l)
    ≤ Z.max (Zdigits2 m + e) (snd (shr_fexp prec emax m e l)).
Proof.
  intros Hm. unfold shr_fexp, shr.
  assert (shr_m (shr_record_of_loc m l) = m) as Hrec by (by destruct l as [|[]]).
  destruct (fexp prec emax (Zdigits2 m + e) - e) as [|p|p] eqn:Hn; simpl.
  - rewrite Hrec. lia.
  - pose proof (iter_pos_digits p (shr_record_of_loc m l)) as H.
    rewrite Hrec in H. specialize (H Hm). lia.
  - rewrite Hrec. lia.
Qed.

Lemma round_nearest_even_digits (m : Z) (l : location) :
  0 ≤ m → Zdigits2 (round_nearest_even m l) ≤ Zdigits2 m + 1.
Proof.
  intros Hm.
  assert (Zdigits2 (m + 1) ≤ Zdigits2 m + 1) as Hsucc.
  { pose proof (Zdigits2_nonneg m). pose proof (Zdigits2_upper m Hm).
    apply Zdigits2_le; [lia..|]. rewrite Z.pow_add_r by lia. lia. }
  destruct l as [|[]]; simpl; [lia| |lia|done]. destruct (Z.even m); lia.
Qed.

Lemma binary_round_aux_finite (s : bool) (m e : Z) (l : location) :
  0 ≤ m → Zdigits2 m + e ≤ 1000 → e ≤ 900 →
  ∀ s', binary_round_aux prec emax s m e l ≠ S754_infinity s'.
Proof.
  intros Hm Hd He s'. unfold binary_round_aux.
  destruct (shr_fexp_digits m e l Hm) as [He1 Hd1].
  pose proof (shr_fexp_nonneg m e l Hm) as Hm1.
  destruct (shr_fexp prec emax m e l) as [mrs' e1]. simpl in He1, Hd1, Hm1.
  pose proof (round_nearest_even_nonneg _ (loc_of_shr_record mrs') Hm1) as Hr.
  pose proof (round_nearest_even_digits _ (loc_of_shr_record mrs') Hm1) as Hrd.
  destruct (shr_fexp_digits _ e1 loc_Exact Hr) as [He2 _].
  destruct (shr_fexp prec emax _ e1 loc_Exact) as [mrs'' e2]. simpl in He2.
  destruct (shr_m mrs''); [done| |done].
  assert (e2 ≤ emax - prec) as Hle.
  { unfold fexp, emin, prec, emax in *. lia. }
  by apply Z.leb_le in Hle as ->.
Qed.

Lemma SFdiv_core_binary_digits (ma mb : positive) :
  Zdigits2 (Z.pos ma) ≤ 1000 →
  Zdigits2 (fst (fst (SFdiv_core_binary prec emax (Z.pos ma) 0 (Z.pos mb) 0)))
    + snd (fst (SFdiv_core_binary prec emax (Z.pos ma) 0 (Z.pos mb) 0)) ≤ 1000 ∧
  snd (fst (SFdiv_core_binary prec emax (Z.pos ma) 0 (Z.pos mb) 0)) ≤ 0.
Proof.
  intros Hd. unfold SFdiv_core_binary.
  set (e' := Z.min _ (0 - 0)). set (s := 0 - 0 - e').
  assert (e' ≤ 0) as He' by (unfold e'; lia).
  set (m' := match s with Z.pos _ => Z.shiftl (Z.pos ma) s | 0 => Z.pos ma | _ => 0 end).
  assert (0 ≤ m' ∧ m' < 2 ^ (Zdigits2 (Z.pos ma) + s)) as [Hm' Hm'lt].
  { pose proof (Zdigits2_upper (Z.pos ma) ltac:(done)) as Hup.
    pose proof (Zdigits2_nonneg (Z.pos ma)).
    unfold m'. destruct s as [|p|p] eqn:Hs; [|split|lia].
    - rewrite Z.add_0_r. lia.
    - by apply Z.shiftl_nonneg.
    - rewrite Z.shiftl_mul_pow2, Z.pow_add_r by lia.
      apply Z.mul_lt_mono_pos_r; [by apply Z.pow_pos_nonneg|done]. }
  assert (s = - e') as Hs by (unfold s; lia).
  clearbody m' s e'.
  pose proof (Z.div_pos m' (Z.pos mb) Hm' eq_refl) as Hq.
  assert (m' / Z.pos mb ≤ m') as Hqle by (apply Z.div_le_upper_bound; nia).
  unfold Z.div in Hq, Hqle. destruct (Z.div_eucl m' (Z.pos mb)) as [q r].
  cbn [fst snd] in *. split; [|done].
  pose proof (Zdigits2_nonneg (Z.pos ma)).
  assert (Zdigits2 q ≤ Zdigits2 (Z.pos ma) + s); [|lia].
  apply Zdigits2_le; [done|lia|lia].
Qed.

Lemma int_true_divide_returns (a b : Z) :
  0 ≤ a < 2 ^ 1000 → 0 < b → ∃ f, int_true_divide a b = Ok f.
Proof.
  intros [Ha Hlt] Hb. unfold int_true_divide.
  destruct (Z.eqb_spec b 0) as [|_]; [lia|].
  destruct (Z.eqb_spec a 0) as [|Ha0]; [by eexists|].
  assert ((a <? 0) = false) as -> by lia.
  assert ((b <? 0) = false) as -> by lia.
  unfold SFdiv.
  assert (Zdigits2 (Z.pos (Z.to_pos (Z.abs a))) ≤ 1000) as Hd.
  { apply Zdigits2_le; [done..|]. rewrite Z2Pos.id by lia. lia. }
  destruct (SFdiv_core_binary_digits (Z.to_pos (Z.abs a)) (Z.to_pos (Z.abs b)) Hd)
    as [Hdq He].
  pose proof (SFdiv_core_binary_nonneg (Z.to_pos (Z.abs a)) (Z.to_pos (Z.abs b)) 0 0) as Hq.
  destruct (SFdiv_core_binary prec emax _ 0 _ 0) as [[mz ez] lz]. simpl in *.
  pose proof (binary_round_aux_finite false mz ez lz Hq Hdq ltac:(lia)) as Hfin.
  destruct (binary_round_aux prec emax false mz ez lz) as [| s'| |]; try by eexists.
  by destruct (Hfin s').
Qed.

Lemma py_truediv_returns (x : pynum) (b : Z) (m : positive) (e : Z) :
  0 < b → float_of_int b = Ok (S754_finite false m e) → fits x →
  ∃ f, py_truediv x (PInt b) = Ok (PFloat f).
Proof.
  intros Hb Hfb Hx. destruct x as [a|f]; simpl.
  - destruct (int_true_divide_returns a b Hx Hb) as [f ->]. by exists f.
  - rewrite Hfb. simpl. by eexists.
Qed.

Lemma calculate_cost_returns (input_tokens output_tokens : pynum) (model : string) :
  fits input_tokens → fits output_tokens →
  ∃ f, CheckApiUsage.calculate_cost input_tokens output_tokens model = Ok (PFloat f).
Proof.
  intros Hi Ho. rewrite calculate_cost_prices.
  assert (∃ m e, float_of_int 1000000 = Ok (S754_finite false m e)) as (mM & eM & HM)
    by (do 2 eexists; vm_compute; reflexivity).
  assert (∃ f, float_of_int 5 = Ok f) as (f5 & H5) by (eexists; vm_compute; reflexivity).
  assert (∃ f, float_of_int 20 = Ok f) as (f20 & H20) by (eexists; vm_compute; reflexivity).
  destruct (py_truediv_returns input_tokens 1000000 mM eM eq_refl HM Hi) as [fi ->].
  destruct (py_truediv_returns output_tokens 1000000 mM eM eq_refl HM Ho) as [fo ->].
  rewrite !result_bind_Ok, (py_mul_float_int fi 5 f5 H5), !result_bind_Ok.
  rewrite (py_mul_float_int fo 20 f20 H20), !result_bind_Ok, py_add_floats.
  by eexists.
Qed.

Lemma calculate_cost_float (input_tokens output_tokens : pynum) (model : string)
    (c : pynum) :
  CheckApiUsage.calculate_cost input_tokens output_tokens model = Ok c →
  ∃ fi fo f5 f20,
    py_truediv input_tokens (PInt 1000000) = Ok (PFloat fi) ∧
    py_truediv output_tokens (PInt 1000000) = Ok (PFloat fo) ∧
    float_of_int 5 = Ok f5 ∧ float_of_int 20 = Ok f20 ∧
    c = PFloat (SFadd prec emax (SFmul prec emax fi f5) (SFmul prec emax fo f20)).
Proof.
  rewrite calculate_cost_prices.
  assert (∃ f, float_of_int 5 = Ok f) as (f5 & H5) by (eexists; vm_compute; reflexivity).
  assert (∃ f, float_of_int 20 = Ok f) as (f20 & H20) by (eexists; vm_compute; reflexivity).
  assert (∀ x q, py_truediv x (PInt 1000000) = Ok q → ∃ f, q = PFloat f) as Hdiv.
  { intros [a|f] q; cbn [py_truediv to_float].
    - destruct (int_true_divide a 1000000) as [g|]; [|done].
      rewrite result_bind_Ok. intros [= <-]. by eexists.
    - rewrite result_bind_Ok.
      destruct (float_of_int 1000000) as [fM|]; [|done]. rewrite result_bind_Ok.
      destruct (is_zero fM); [done|]. intros [= <-]. by eexists. }
  destruct (py_truediv input_tokens (PInt 1000000)) as [im|] eqn:Him; [|done].
  destruct (Hdiv _ _ Him) as [fi ->].
  rewrite result_bind_Ok, (py_mul_float_int fi 5 f5 H5), !result_bind_Ok.
  destruct (py_truediv output_tokens (PInt 1000000)) as [om|] eqn:Hom; [|done].
  destruct (Hdiv _ _ Hom) as [fo ->].
  rewrite result_bind_Ok, (py_mul_float_int fo 20 f20 H20), !result_bind_Ok, py_add_floats.
  intros [= <-]. by exists fi, fo, f5, f20.
Qed.

Section CostMore.
Import CheckApiUsage.

(** X13: for a model of the pricing table and token counts that are ints or
    floats, [calculate_cost] returns a float or raises [OverflowError]; the
    lookups in the table raise no [KeyError] and the divisions no
    [ZeroDivisionError].  It raises only when a count is an int that is
    negative or not below [2 ^ 1000].  (For a model that the table lacks the
    function writes a warning first.) *)
Theorem cost_or_overflow (input_tokens output_tokens : pynum) (model : string) :
  is_Some (MODEL_PRICING !! model) →
  (∃ f, calculate_cost input_tokens output_tokens model = Ok (PFloat f)) ∨
  (∃ e, calculate_cost input_tokens output_tokens model = Raise e ∧
        exn_class e = "OverflowError" ∧
        ¬ (fits input_tokens ∧ fits output_tokens)).
Proof.
  intros _.
  destruct (calculate_cost input_tokens output_tokens model) as [c|e] eqn:Hrun.
  - left. apply calculate_cost_float in Hrun as (fi & fo & f5 & f20 & _ & _ & _ & _ & ->).
    by eexists.
  - right. exists e. split_and!; [done| |].
    + by apply (calculate_cost_overflow_only input_tokens output_tokens model).
    + intros [Hi Ho].
      destruct (calculate_cost_returns input_tokens output_tokens model Hi Ho) as [f Hf].
      congruence.
Qed.

(** X20: for a model of the pricing table, [calculate_cost] returns whenever
    each count is a float or an int from 0 to below [2 ^ 1000].  What it
    returns is the float [(input_tokens / 1000000) * 5.0 + (output_tokens /
    1000000) * 20.0], each operation rounded to the nearest double; for
    counts that are not negative it is neither negative nor a NaN. *)
Theorem cost_returned (input_tokens output_tokens : pynum) (model : string) :
  is_Some (MODEL_PRICING !! model) → fits input_tokens → fits output_tokens →
  ∃ fi fo,
    py_truediv input_tokens (PInt 1000000) = Ok (PFloat fi) ∧
    py_truediv output_tokens (PInt 1000000) = Ok (PFloat fo) ∧
    calculate_cost input_tokens output_tokens model =
      Ok (PFloat (SFadd prec emax
                    (SFmul prec emax fi (S754_finite false 5629499534213120 (-50)))
                    (SFmul prec emax fo (S754_finite false 5629499534213120 (-48))))) ∧
    (is_amount input_tokens → is_amount output_tokens →
     is_cost (SFadd prec emax
                (SFmul prec emax fi (S754_finite false 5629499534213120 (-50)))
                (SFmul prec emax fo (S754_finite false 5629499534213120 (-48))))).
Proof.
  intros _ Hi Ho.
  destruct (calculate_cost_returns input_tokens output_tokens model Hi Ho) as [f Hf].
  pose proof Hf as (fi & fo & f5 & f20 & Hfi & Hfo & H5 & H20 & Hc)%calculate_cost_float.
  vm_compute in H5, H20. injection H5 as <-. injection H20 as <-.
  injection Hc as ->.
  exists fi, fo. split_and!; [done..|].
  intros Hai Hao.
  destruct (calculate_cost_amount _ _ _ _ Hai Hao Hf) as (g & [= <-] & Hg). exact Hg.
Qed.

End CostMore.

Lemma cost_or_overflow_witness :
  (∃ f, CheckApiUsage.calculate_cost (PInt (10 ^ 400)) (PInt 0) "gpt-4o" = Ok (PFloat f)) ∨
  (∃ e, CheckApiUsage.calculate_cost (PInt (10 ^ 400)) (PInt 0) "gpt-4o" = Raise e ∧
        exn_class e = "OverflowError" ∧
        ¬ (fits (PInt (10 ^ 400)) ∧ fits (PInt 0))).
Proof.
  apply (cost_or_overflow (PInt (10 ^ 400)) (PInt 0) "gpt-4o"). by eexists.
Defined.

Lemma cost_returned_witness :
  ∃ fi fo,
    py_truediv (PInt 1200) (PInt 1000000) = Ok (PFloat fi) ∧
    py_truediv (PInt 300) (PInt 1000000) = Ok (PFloat fo) ∧
    CheckApiUsage.calculate_cost (PInt 1200) (PInt 300) "gpt-4o" =
      Ok (PFloat (SFadd prec emax
                    (SFmul prec emax fi (S754_finite false 5629499534213120 (-50)))
                    (SFmul prec emax fo (S754_finite false 5629499534213120 (-48))))) ∧
    (is_amount (PInt 1200) → is_amount (PInt 300) →
     is_cost (SFadd prec emax
                (SFmul prec emax fi (S754_finite false 5629499534213120 (-50)))
                (SFmul prec emax fo (S754_finite false 5629499534213120 (-48))))).
Proof.
  apply (cost_returned (PInt 1200) (PInt 300) "gpt-4o");
    [by eexists|vm_compute; split; [discriminate|reflexivity]..].
Defined.

(** ** Readable files are analyzed *)

Lemma Zdigits2_pos (m : Z) : 0 ≤ m → (0 < Zdigits2 m ↔ 0 < m).
Proof. destruct m; simpl; lia. Qed.

Lemma shr_1_digits_lower (mrs : shr_record) :
  0 ≤ shr_m mrs → Zdigits2 (shr_m mrs) - 1 ≤ Zdigits2 (shr_m (shr_1 mrs)).
Proof. destruct mrs as [[|[p|p|]|[p|p|]] r s]; simpl; lia. Qed.

Lemma iter_pos_digits_lower (p : positive) (mrs : shr_record) :
  0 ≤ shr_m mrs →
  Zdigits2 (shr_m mrs) - Z.pos p ≤ Zdigits2 (shr_m (SpecFloat.iter_pos shr_1 p mrs)).
Proof.
  revert mrs. induction p as [p IH|p IH|]; intros mrs Hm; simpl SpecFloat.iter_pos.
  - pose proof (shr_1_digits_lower mrs Hm).
    pose proof (IH _ (shr_1_nonneg _ Hm)).
    pose proof (IH _ (iter_pos_nonneg p _ (shr_1_nonneg _ Hm))). lia.
  - pose proof (IH _ Hm).
    pose proof (IH _ (iter_pos_nonneg p _ Hm)). lia.
  - by apply shr_1_digits_lower.
Qed.

(** In the range of the normal numbers, rounding keeps a positive mantissa
    positive. *)
Lemma shr_fexp_positive (m e : Z) (l : location) :
  0 < m → -1000 ≤ e →
  0 < shr_m (fst (shr_fexp prec emax m e l)) ∧ e ≤ snd (shr_fexp prec emax m e l).
Proof.
  intros Hm He.
  pose proof (shr_fexp_nonneg m e l ltac:(lia)) as Hnn.
  pose proof (proj2 (Zdigits2_pos m ltac:(lia)) Hm) as Hd.
  revert Hnn. unfold shr_fexp, shr.
  assert (shr_m (shr_record_of_loc m l) = m) as Hrec by (by destruct l as [|[]]).
  destruct (fexp prec emax (Zdigits2 m + e) - e) as [|p|p] eqn:Hn; simpl.
  - rewrite Hrec. lia.
  - intros Hnn. split; [|lia]. apply Zdigits2_pos; [done|].
    pose proof (iter_pos_digits_lower p (shr_record_of_loc m l)) as H.
    rewrite Hrec in H. specialize (H ltac:(lia)).
    unfold fexp, emin, prec, emax in Hn. lia.
  - rewrite Hrec. lia.
Qed.

Lemma round_nearest_even_ge (m : Z) (l : location) : m ≤ round_nearest_even m l.
Proof. destruct l as [|[]]; simpl; [lia| |lia|lia]. destruct (Z.even m); lia. Qed.

Lemma binary_round_aux_nonzero (s : bool) (m e : Z) (l : location) :
  0 < m → -1000 ≤ e → is_zero (binary_round_aux prec emax s m e l) = false.
Proof.
  intros Hm He. unfold binary_round_aux.
  destruct (shr_fexp_positive m e l Hm He) as [Hm1 He1].
  destruct (shr_fexp prec emax m e l) as [mrs' e1]. simpl in Hm1, He1.
  pose proof (round_nearest_even_ge (shr_m mrs') (loc_of_shr_record mrs')) as Hr.
  destruct (shr_fexp_positive (round_nearest_even (shr_m mrs') (loc_of_shr_record mrs'))
              e1 loc_Exact) as [Hm2 _]; [lia..|].
  destruct (shr_fexp prec emax _ e1 loc_Exact) as [mrs'' e2]. simpl in Hm2.
  destruct (shr_m mrs''); [lia| |done].
  by destruct (e2 <=? emax - prec).
Qed.

Lemma SFdiv_core_binary_positive (ma mb : positive) :
  Zdigits2 (Z.pos mb) ≤ 900 →
  0 < fst (fst (SFdiv_core_binary prec emax (Z.pos ma) 0 (Z.pos mb) 0)) ∧
  -1000 ≤ snd (fst (SFdiv_core_binary prec emax (Z.pos ma) 0 (Z.pos mb) 0)).
Proof.
  intros Hd2. unfold SFdiv_core_binary.
  pose proof (proj2 (Zdigits2_pos (Z.pos ma) ltac:(done)) ltac:(done)) as Hd1.
  pose proof (proj2 (Zdigits2_pos (Z.pos mb) ltac:(done)) ltac:(done)) as Hd2'.
  pose proof (Zdigits2_lower ma) as Hlow.
  pose proof (Zdigits2_upper (Z.pos mb) ltac:(done)) as Hup.
  set (d1 := Zdigits2 (Z.pos ma)) in *. set (d2 := Zdigits2 (Z.pos mb)) in *.
  set (e' := Z.min _ (0 - 0)). set (s := 0 - 0 - e').
  assert (-1000 ≤ e' ∧ e' ≤ 0 ∧ d2 < d1 + - e') as (He'l & He'u & Hbig).
  { unfold e', fexp, emin, prec, emax. lia. }
  assert (s = - e') as Hs by (unfold s; lia).
  set (m' := match s with Z.pos _ => Z.shiftl (Z.pos ma) s | 0 => Z.pos ma | _ => 0 end).
  assert (m' = Z.pos ma * 2 ^ s) as Hm'.
  { unfold m'. destruct s as [|p|p] eqn:Hsp; [lia| |lia]. by rewrite Z.shiftl_mul_pow2. }
  clearbody m' s e' d1 d2.
  assert (Z.pos mb ≤ m') as Hge.
  { assert (2 ^ d2 ≤ 2 ^ (d1 - 1) * 2 ^ s) as H.
    { rewrite <-Z.pow_add_r by lia. apply Z.pow_le_mono_r; lia. }
    assert (0 < 2 ^ s) by (apply Z.pow_pos_nonneg; lia). nia. }
  assert (0 < m' / Z.pos mb) as Hq by (apply Z.div_str_pos; lia).
  unfold Z.div in Hq. destruct (Z.div_eucl m' (Z.pos mb)) as [q r]. simpl in *. lia.
Qed.

Lemma int_true_divide_nonzero (a b : Z) (f : spec_float) :
  0 < a → 0 < b < 2 ^ 900 → int_true_divide a b = Ok f → is_zero f = false.
Proof.
  intros Ha [Hb Hblt]. unfold int_true_divide.
  destruct (Z.eqb_spec b 0) as [|_]; [lia|].
  destruct (Z.eqb_spec a 0) as [|_]; [lia|].
  unfold SFdiv.
  assert (Zdigits2 (Z.pos (Z.to_pos (Z.abs b))) ≤ 900) as Hd.
  { apply Zdigits2_le; [done..|]. rewrite Z2Pos.id by lia. lia. }
  destruct (SFdiv_core_binary_positive (Z.to_pos (Z.abs a)) (Z.to_pos (Z.abs b)) Hd)
    as [Hq He].
  destruct (SFdiv_core_binary prec emax _ 0 _ 0) as [[mz ez] lz]. simpl in Hq, He.
  pose proof (binary_round_aux_nonzero (xorb (a <? 0) (b <? 0)) mz ez lz Hq He) as Hnz.
  destruct (binary_round_aux prec emax _ mz ez lz); intros [= <-]; done.
Qed.

Lemma iter_xO_digits (d mx : positive) :
  Z.pos (digits2_pos (Pos.iter xO mx d)) = Z.pos (digits2_pos mx) + Z.pos d.
Proof.
  induction d as [|d IH] using Pos.peano_ind.
  - simpl. lia.
  - rewrite Pos.iter_succ. simpl. lia.
Qed.

Lemma float_of_int_returns (n : Z) :
  0 ≤ n < 2 ^ 1000 → ∃ f, float_of_int n = Ok f.
Proof.
  intros [Hn Hlt]. unfold float_of_int, binary_normalize.
  destruct n as [|p|p]; [by eexists| |lia].
  unfold binary_round.
  assert (Zdigits2 (Z.pos p) ≤ 1000) as Hd by (by apply Zdigits2_le).
  assert (∀ mz ez, shl_align p 0 (fexp prec emax (Z.pos (digits2_pos p) + 0)) = (mz, ez) →
                   Zdigits2 (Z.pos mz) + ez ≤ 1000 ∧ ez ≤ 900) as Halign.
  { unfold shl_align. intros mz ez.
    destruct (fexp prec emax _ - 0) as [|d|d] eqn:Hf; intros [= <- <-]; simpl in *; [lia..|].
    rewrite iter_xO_digits. unfold fexp, emin, prec, emax in *. lia. }
  destruct (shl_align p 0 _) as [mz ez].
  destruct (Halign mz ez eq_refl) as [Hdz Hez].
  pose proof (binary_round_aux_finite false (Z.pos mz) ez loc_Exact ltac:(done) Hdz Hez) as Hfin.
  destruct (binary_round_aux prec emax false (Z.pos mz) ez loc_Exact) as [|s'| |];
    try by eexists.
  by destruct (Hfin s').
Qed.

Section Readable.
Import CheckApiUsage.
Context (sys : system).

Lemma analyze_file_tokens_readable (path model content : string) (size : Z) :
  read_text sys path = Ok content → getsize sys path = Ok size →
  count_tokens sys content model < 2 ^ 1000 → size < 2 ^ 1000 →
  ∃ per_kb,
    analyze_file_tokens sys path model =
      {| filepath := path; tokens := count_tokens sys content model; size_bytes := size;
         tokens_per_kb := per_kb; error := None |} ∧
    (size ≤ 0 → per_kb = PInt 0) ∧
    (0 < size →
     ∃ kb f, py_truediv (PInt size) (PInt 1024) = Ok (PFloat kb) ∧
             is_zero kb = false ∧
             py_truediv (PInt (count_tokens sys content model)) (PFloat kb)
               = Ok (PFloat f) ∧
             per_kb = PFloat f).
Proof.
  intros Hread Hsize Htok Hlt.
  pose proof (count_tokens_nonneg sys content model) as Hnn.
  set (n := count_tokens sys content model) in *.
  assert (∃ per_kb,
            (if 0 <? size then
               kb ← py_truediv (PInt size) (PInt 1024); py_truediv (PInt n) kb
             else Ok (PInt 0)) = Ok per_kb ∧
            (size ≤ 0 → per_kb = PInt 0) ∧
            (0 < size →
             ∃ kb f, py_truediv (PInt size) (PInt 1024) = Ok (PFloat kb) ∧
                     is_zero kb = false ∧
                     py_truediv (PInt n) (PFloat kb) = Ok (PFloat f) ∧
                     per_kb = PFloat f)) as (per_kb & Hper & Hempty & Hfull).
  { destruct (Z.ltb_spec 0 size) as [Hpos|Hle].
    - destruct (int_true_divide_returns size 1024) as [kb Hkb]; [lia..|].
      pose proof (int_true_divide_nonzero size 1024 kb Hpos ltac:(lia) Hkb) as Hnz.
      destruct (float_of_int_returns n) as [ft Hft]; [lia|].
      assert (py_truediv (PInt n) (PFloat kb) = Ok (PFloat (SFdiv prec emax ft kb))) as Hq
        by (cbn [py_truediv to_float]; by rewrite Hft, !result_bind_Ok, Hnz).
      exists (PFloat (SFdiv prec emax ft kb)).
      rewrite py_truediv_ints, Hkb, !result_bind_Ok.
      split_and!; [done|lia|]. intros _. by exists kb, (SFdiv prec emax ft kb).
    - exists (PInt 0). split_and!; [done|done|lia]. }
  exists per_kb. split_and!; [|done..].
  unfold analyze_file_tokens. rewrite Hread, result_bind_Ok. fold n.
  rewrite Hsize, result_bind_Ok, Hper. reflexivity.
Qed.

(** X21: a file that can be read and whose size can be taken is analyzed
    without error, whatever its content and its size: its result carries the
    path, the token count of the content and the size, and no ["error"] key.
    For an empty file [tokens_per_kb] is the int [0], and nothing is
    divided; for any other file it is the float
    [token_count / (file_size / 1024)], whose divisor is not zero.  The bound
    [2 ^ 1000] on count and size keeps the ratio within the floats. *)
Theorem readable_file_analyzed (path model content : string) (size : Z) :
  read_text sys path = Ok content → getsize sys path = Ok size →
  count_tokens sys content model < 2 ^ 1000 → size < 2 ^ 1000 →
  error (analyze_file_tokens sys path model) = None ∧
  tokens (analyze_file_tokens sys path model) = count_tokens sys content model ∧
  size_bytes (analyze_file_tokens sys path model) = size ∧
  filepath (analyze_file_tokens sys path model) = path ∧
  (size ≤ 0 → tokens_per_kb (analyze_file_tokens sys path model) = PInt 0) ∧
  (0 < size →
   ∃ kb f, py_truediv (PInt size) (PInt 1024) = Ok (PFloat kb) ∧
           is_zero kb = false ∧
           py_truediv (PInt (count_tokens sys content model)) (PFloat kb)
             = Ok (PFloat f) ∧
           tokens_per_kb (analyze_file_tokens sys path model) = PFloat f).
Proof.
  intros Hread Hsize Htok Hlt.
  by destruct (analyze_file_tokens_readable _ model _ _ Hread Hsize Htok Hlt)
    as (per_kb & -> & Hempty & Hfull).
Qed.

(** X22: under the same bound, the result of an analysis carries an error
    exactly when reading the file raises, or taking its size does; the error
    is then the message of that exception, and the token count is zero. *)
Theorem analysis_error_iff (path model : string) :
  (∀ content, read_text sys path = Ok content →
              count_tokens sys content model < 2 ^ 1000) →
  (∀ size, getsize sys path = Ok size → size < 2 ^ 1000) →
  ∀ message,
    error (analyze_file_tokens sys path model) = Some message ↔
    (∃ e, read_text sys path = Raise e ∧ message = exn_str e) ∨
    (∃ content e, read_text sys path = Ok content ∧ getsize sys path = Raise e ∧
                  message = exn_str e).
Proof.
  intros Htok Hsize message.
  destruct (read_text sys path) as [content|e] eqn:Hread.
  - destruct (getsize sys path) as [size|e] eqn:Hget.
    + destruct (analyze_file_tokens_readable path model content size Hread Hget)
        as (per_kb & -> & _); [by apply Htok|by apply Hsize|]. simpl.
      split; [done|]. intros [(e & ? & _)|(? & e & _ & ? & _)]; done.
    + unfold analyze_file_tokens. rewrite Hread, result_bind_Ok, Hget. simpl.
      split.
      * intros [= <-]. right. by exists content, e.
      * intros [(e' & ? & _)|(? & e' & _ & [= <-] & ->)]; done.
  - unfold analyze_file_tokens. rewrite Hread. simpl. split.
    + intros [= <-]. left. by exists e.
    + intros [(e' & [= <-] & ->)|(? & e' & ? & _)]; done.
Qed.

End Readable.

Lemma readable_file_analyzed_witness :
  (CheckApiUsage.error
     (CheckApiUsage.analyze_file_tokens empty_file_project "./__init__.py" "gpt-4o") = None ∧
   CheckApiUsage.tokens_per_kb
     (CheckApiUsage.analyze_file_tokens empty_file_project "./__init__.py" "gpt-4o") = PInt 0) ∧
  (CheckApiUsage.error
     (CheckApiUsage.analyze_file_tokens small_project "./notes.txt" "gpt-4o") = None ∧
   ∃ kb f, py_truediv (PInt 160) (PInt 1024) = Ok (PFloat kb) ∧
           py_truediv (PInt 40) (PFloat kb) = Ok (PFloat f) ∧
           CheckApiUsage.tokens_per_kb
             (CheckApiUsage.analyze_file_tokens small_project "./notes.txt" "gpt-4o")
             = PFloat f).
Proof.
  split.
  - destruct (readable_file_analyzed empty_file_project "./__init__.py" "gpt-4o" "" 0)
      as (Herr & _ & _ & _ & Hempty & _); [vm_compute; reflexivity..|].
    split; [exact Herr|]. apply Hempty. lia.
  - destruct (readable_file_analyzed small_project "./notes.txt" "gpt-4o"
                "forty tokens of text" 160)
      as (Herr & _ & _ & _ & _ & Hfull); [vm_compute; reflexivity..|].
    split; [exact Herr|].
    destruct (Hfull ltac:(lia)) as (kb & f & Hkb & _ & Hf & Hper).
    by exists kb, f.
Defined.

Lemma analysis_error_iff_witness :
  CheckApiUsage.error (CheckApiUsage.analyze_file_tokens small_project "./locked.txt" "gpt-4o")
    = Some "[Errno 13] Permission denied: './locked.txt'".
Proof.
  apply (analysis_error_iff small_project "./locked.txt" "gpt-4o").
  - intros content Hread. vm_compute in Hread. discriminate Hread.
  - intros size [= <-]. vm_compute. reflexivity.
  - left. exists (Exn "PermissionError" "[Errno 13] Permission denied: './locked.txt'").
    split; reflexivity.
Defined.
